(** * The image-file action of debos, and its lifecycle properties

    A shallow embedding of [actions/image_file_action.go].  The action talks
    to the operating system, to the loop-device library, to the fakemachine
    helper and to external formatting tools.  None of these is part of the
    action itself, so every such call is an explicit request ([Call]) whose
    answer is chosen by the environment ([OS]); the action is a program
    ([Prog]) over these requests.  Running a program against an environment
    yields its result, the final state of the environment and the ordered
    list of the requests it made together with their answers (its trace).
    Properties in "for every execution" form quantify over all environments
    and all of their states. *)

From Stdlib Require Import ZArith String List Bool Lia.
From stdpp Require Import base option list strings gmap.

Open Scope string_scope.
Open Scope list_scope.
Open Scope Z_scope.

(** ** Go values *)

(** A Go [error] value is modelled by the text its [Error()] method gives;
    the [nil] error is [None] of [option error]. *)
Abbreviation error := string (only parsing).

(** [os.File]: an open file, identified by its descriptor number. *)
Definition File : Type := nat.
Definition Fd (f : File) : Z := Z.of_nat f.

(** [losetup.Device]: a loop device, identified by its number. *)
Record Device : Type := mkDevice { number : N }.

(** Arguments handed to [log.Printf] next to the format string. *)
Inductive Arg : Type :=
| ArgS (s : string)
| ArgD (n : Z)
| ArgErr (e : error).

(** Constants of [os], [syscall] and [time] (Linux values). *)
Definition O_WRONLY : Z := 1.
Definition O_CREATE : Z := 64.
Definition O_TRUNC : Z := 512.
Definition LOCK_EX : Z := 2.
Definition Second : Z := 1000000000.
Definition perm_0666 : Z := 438.
Definition perm_0755 : Z := 493.

(** ** Package debos (only the declarations the action uses) *)

Module debos.

(** [debos.BaseAction], embedded in every action. *)
Record BaseAction : Type := mkBaseAction {
  Action : string;
  Description : string
}.

(** [debos.DebosContext]: the fields the image-file action reads or
    writes. *)
Record DebosContext : Type := mkDebosContext {
  Scratchdir : string;
  Rootdir : string;
  Image : string;
  ImageMntDir : string
}.

Definition set_Image (c : DebosContext) (v : string) : DebosContext :=
  {| Scratchdir := Scratchdir c; Rootdir := Rootdir c;
     Image := v; ImageMntDir := ImageMntDir c |}.

Definition set_ImageMntDir (c : DebosContext) (v : string) : DebosContext :=
  {| Scratchdir := Scratchdir c; Rootdir := Rootdir c;
     Image := Image c; ImageMntDir := v |}.

End debos.
Import debos.

(** ** Requests to the outside world *)

(** One constructor per imported function the action calls.  A Go function
    returning [(T, error)] answers with a pair, exactly as in Go: the caller
    decides by looking at the error component. *)
Inductive Call : Type -> Type :=
(* units.FromHumanSize(size) *)
| FromHumanSize (size : string) : Call (Z * option error)
(* log.Printf(format, v...) *)
| Printf (format : string) (v : list Arg) : Call unit
(* BaseAction.LogStart() *)
| LogStart (b : BaseAction) : Call unit
(* os.OpenFile(name, flag, perm) *)
| OpenFile (name : string) (flag : Z) (perm : Z) : Call (File * option error)
(* os.Open(name) *)
| Open (name : string) : Call (File * option error)
(* os.File.Truncate(size) *)
| Truncate (f : File) (size : Z) : Call (option error)
(* os.File.Close() *)
| Close (f : File) : Call (option error)
(* losetup.Attach(backingFile, offset, ro) *)
| Attach (backingFile : string) (offset : Z) (ro : bool)
    : Call (Device * option error)
(* losetup.Device.Path() *)
| Path (d : Device) : Call string
(* losetup.Device.Detach() *)
| Detach (d : Device) : Call (option error)
(* losetup.Device.Remove() *)
| Remove (d : Device) : Call (option error)
(* fakemachine.Machine.CreateImage(path, size) *)
| CreateImage (path : string) (size : Z) : Call (string * option error)
(* syscall.Flock(fd, how) *)
| Flock (fd : Z) (how : Z) : Call (option error)
(* debos.Command{}.Run(label, cmdline...) *)
| CommandRun (label : string) (cmdline : list string) : Call (option error)
(* filepath.EvalSymlinks(path) *)
| EvalSymlinks (path : string) : Call (string * option error)
(* path.Join(elem...) *)
| PathJoin (elem : list string) : Call string
(* os.MkdirAll(path, perm) *)
| MkdirAll (path : string) (perm : Z) : Call (option error)
(* syscall.Mount(source, target, fstype, flags, data) *)
| Mount (source target fstype : string) (flags : Z) (data : string)
    : Call (option error)
(* syscall.Unmount(target, flags) *)
| Unmount (target : string) (flags : Z) : Call (option error)
(* time.Sleep(d) *)
| Sleep (d : Z) : Call unit.

(** ** Programs *)

Inductive Prog (A : Type) : Type :=
| Ret (a : A)
| Do {R : Type} (c : Call R) (k : R -> Prog A).
Arguments Ret {A} a.
Arguments Do {A R} c k.

Fixpoint bind {A B : Type} (p : Prog A) (f : A -> Prog B) : Prog B :=
  match p with
  | Ret a => f a
  | Do c k => Do c (fun r => bind (k r) f)
  end.

#[global] Instance Prog_ret : MRet Prog := @Ret.
#[global] Instance Prog_bind : MBind Prog := fun A B f p => bind p f.

Definition call {R : Type} (c : Call R) : Prog R := Do c Ret.

(** Go's [defer d]: [d] runs when the surrounding function returns, on
    whichever path [body] ends, and the function's result is that of
    [body]. *)
Definition defer {A B : Type} (d : Prog B) (body : Prog A) : Prog A :=
  a ← body; d;; mret a.

(** ** Executions *)

(** An environment: a state and, for every request, the answer and the next
    state. *)
Record OS : Type := mkOS {
  World : Type;
  sys : forall R : Type, Call R -> World -> R * World
}.
Arguments sys _ {R} _ _.

(** A request together with the answer it got. *)
Inductive Event : Type :=
| Ev {R : Type} (c : Call R) (r : R).

Fixpoint exec (os : OS) {A : Type} (p : Prog A) (w : World os)
  : A * World os * list Event :=
  match p with
  | Ret a => (a, w, [])
  | Do c k =>
      let '(r, w1) := sys os c w in
      let '(a, w2, tr) := exec os (k r) w1 in
      (a, w2, Ev c r :: tr)
  end.

Definition result (os : OS) {A : Type} (p : Prog A) (w : World os) : A :=
  (exec os p w).1.1.
Definition final (os : OS) {A : Type} (p : Prog A) (w : World os) : World os :=
  (exec os p w).1.2.
Definition trace (os : OS) {A : Type} (p : Prog A) (w : World os) : list Event :=
  (exec os p w).2.

(** ** The action *)

(** [type ImageFileAction struct]. *)
Record ImageFileAction : Type := mkImageFileAction {
  BaseAction : debos.BaseAction;
  ImageName : string;
  ImageSize : string;
  FS : string;
  FSName : string;
  size : Z;
  loopDev : Device;
  usingLoop : bool
}.

Definition set_FS (i : ImageFileAction) (v : string) : ImageFileAction :=
  {| BaseAction := BaseAction i; ImageName := ImageName i;
     ImageSize := ImageSize i; FS := v; FSName := FSName i;
     size := size i; loopDev := loopDev i; usingLoop := usingLoop i |}.

Definition set_size (i : ImageFileAction) (v : Z) : ImageFileAction :=
  {| BaseAction := BaseAction i; ImageName := ImageName i;
     ImageSize := ImageSize i; FS := FS i; FSName := FSName i;
     size := v; loopDev := loopDev i; usingLoop := usingLoop i |}.

Definition set_loopDev (i : ImageFileAction) (v : Device) : ImageFileAction :=
  {| BaseAction := BaseAction i; ImageName := ImageName i;
     ImageSize := ImageSize i; FS := FS i; FSName := FSName i;
     size := size i; loopDev := v; usingLoop := usingLoop i |}.

Definition set_usingLoop (i : ImageFileAction) (v : bool) : ImageFileAction :=
  {| BaseAction := BaseAction i; ImageName := ImageName i;
     ImageSize := ImageSize i; FS := FS i; FSName := FSName i;
     size := size i; loopDev := loopDev i; usingLoop := v |}.

(** The action as the recipe parser leaves it: the four configured fields
    are filled in, the unexported ones hold Go's zero values. *)
Definition configured (b : debos.BaseAction) (name sz fs fsname : string)
  : ImageFileAction :=
  {| BaseAction := b; ImageName := name; ImageSize := sz; FS := fs;
     FSName := fsname; size := 0; loopDev := mkDevice 0; usingLoop := false |}.

(** *** formatFile

    The receiver is passed by value ([func (i ImageFileAction) ...]): the
    method works on its own copy of the action.  [formatFile_switch] is the
    [switch] statement; it gives the command line and the method's copy of
    the receiver as the switch leaves it. *)
Definition formatFile_switch (i : ImageFileAction)
  : list string * ImageFileAction :=
  if (FS i =? "vfat")%string then
    (["mkfs.vfat"; "-F32"; "-n"; FSName i], i)
  else if (FS i =? "btrfs")%string then
    (["mkfs.btrfs"; "-L"; FSName i; "-f"], i)
  else if (FS i =? "hfs")%string then
    (["mkfs.hfs"; "-h"; "-v"; FSName i], i)
  else if (FS i =? "hfsplus")%string then
    (["mkfs.hfsplus"; "-v"; FSName i], i)
  else if (FS i =? "hfsx")%string then
    (["mkfs.hfsplus"; "-s"; "-v"; FSName i], set_FS i "hfsplus")
  else if (FS i =? "none")%string then
    ([], i)
  else
    (["mkfs." +:+ FS i; "-L"; FSName i], i).

(** The method returns the error only; its copy of the receiver is dropped
    on return. *)
Definition formatFile (i : ImageFileAction) (context : DebosContext)
  : Prog (option error) :=
  let label := "Formatting file" in
  let '(cmdline, i) := formatFile_switch i in
  if negb (length cmdline =? 0)%nat then
    let cmdline := cmdline ++ [Image context] in
    err ← call (CommandRun label cmdline);
    match err with
    | Some e => mret (Some e)
    | None => mret None
    end
  else mret None.

(** *** PreNoMachine

    Pointer receiver and pointer to the context: the updated action and
    context are returned next to the error. *)
Definition PreNoMachine (i : ImageFileAction) (context : DebosContext)
  : Prog (option error * ImageFileAction * DebosContext) :=
  '(sz, err) ← call (FromHumanSize (ImageSize i));
  match err with
  | Some _ =>
      mret (Some ("Failed to parse image size: " +:+ ImageSize i), i, context)
  | None =>
      let i := set_size i sz in
      call (Printf "PreNoMachine: %s, size: %d" [ArgS (ImageName i); ArgD (size i)]);;
      '(img, err) ← call (OpenFile (ImageName i) (Z.lor O_WRONLY O_CREATE) perm_0666);
      match err with
      | Some e => mret (Some ("Couldn't open image file: " +:+ e), i, context)
      | None =>
          err ← call (Truncate img (size i));
          match err with
          | Some e => mret (Some ("Couldn't resize image file: " +:+ e), i, context)
          | None =>
              call (Close img);;
              '(dev, err) ← call (Attach (ImageName i) 0 false);
              let i := set_loopDev i dev in
              match err with
              | Some _ =>
                  mret (Some "Failed to setup loop device - need sudo?", i, context)
              | None =>
                  p ← call (Path (loopDev i));
                  let context := set_Image context p in
                  let i := set_usingLoop i true in
                  mret (None, i, context)
              end
          end
      end
  end.

(** *** PreMachine

    Value receiver: the assignment to [i.size] changes the method's copy
    only, so no action is returned.  The context and the argument list are
    reached through pointers and are returned.  The machine [m] is part of
    the environment answering [CreateImage]. *)
Definition PreMachine (i : ImageFileAction) (context : DebosContext)
    (args : list string)
  : Prog (option error * DebosContext * list string) :=
  '(sz, err) ← call (FromHumanSize (ImageSize i));
  match err with
  | Some _ =>
      mret (Some ("Failed to parse image size: " +:+ ImageSize i), context, args)
  | None =>
      let i := set_size i sz in
      call (Printf "context.Rootdir: %s" [ArgS (Rootdir context)]);;
      call (Printf "PreMachine: %s, size: %d" [ArgS (ImageName i); ArgD (size i)]);;
      '(image, err) ← call (CreateImage (ImageName i) (size i));
      match err with
      | Some e => mret (Some e, context, args)
      | None =>
          let context := set_Image context image in
          let args := args ++ ["--internal-image"; image] in
          mret (None, context, args)
      end
  end.

(** *** Run

    Value receiver; the context is reached through a pointer. *)
Definition Run (i : ImageFileAction) (context : DebosContext)
  : Prog (option error * DebosContext) :=
  call (LogStart (BaseAction i));;
  call (Printf ("Run: " +:+ Image context) []);;
  '(imageFD, err) ← call (Open (Image context));
  match err with
  | Some e => mret (Some e, context)
  | None =>
      defer (call (Close imageFD)) (
        err ← call (Flock (Fd imageFD) LOCK_EX);
        match err with
        | Some e => mret (Some e, context)
        | None =>
            err ← formatFile i context;
            match err with
            | Some e => mret (Some e, context)
            | None =>
                '(dev, _) ← call (EvalSymlinks (Image context));
                mnt ← call (PathJoin [Scratchdir context; "mnt"]);
                let context := set_ImageMntDir context mnt in
                call (MkdirAll (ImageMntDir context) perm_0755);;
                err ← call (Mount dev (ImageMntDir context) (FS i) 0 "");
                match err with
                | Some e =>
                    mret (Some (ImageMntDir context +:+ " mount failed: " +:+ e),
                          context)
                | None => mret (None, context)
                end
            end
        end)
  end.

(** *** Cleanup *)

(** The [for t := 0; t < 60; t++] loop, by the number of iterations still
    to go ([60 - t]); [err] is the variable the loop assigns. *)
Fixpoint Cleanup_loop (d : Device) (remaining : nat) (err : option error)
  : Prog (option error) :=
  match remaining with
  | O => mret err
  | S remaining' =>
      err ← call (Remove d);
      match err with
      | None => mret err
      | Some e =>
          call (Printf "Loop dev couldn't remove %s, waiting" [ArgErr e]);;
          call (Sleep Second);;
          Cleanup_loop d remaining' err
      end
  end.

Arguments Cleanup_loop d remaining err : simpl never.

Definition Cleanup (i : ImageFileAction) (context : DebosContext)
  : Prog (option error) :=
  err ← call (Unmount (ImageMntDir context) 0);
  match err with
  | Some e =>
      call (Printf "Warning: Failed to get unmount %s: %s"
              [ArgS (ImageMntDir context); ArgErr e]);;
      call (Printf "Unmount failure can cause images being incomplete!" []);;
      mret (Some e)
  | None =>
      if usingLoop i then
        err ← call (Detach (loopDev i));
        match err with
        | Some e =>
            call (Printf "WARNING: Failed to detach loop device: %s" [ArgErr e]);;
            mret (Some e)
        | None =>
            err ← Cleanup_loop (loopDev i) 60 err;
            match err with
            | Some e =>
                call (Printf "WARNING: Failed to remove loop device: %s" [ArgErr e]);;
                mret (Some e)
            | None => mret None
            end
        end
      else mret None
  end.

(** *** The allocation of the backing file

    The part of [PreNoMachine] that creates and sizes the image file (open,
    truncate, close), on its own.  [PreNoMachine_allocate] below shows that
    [PreNoMachine] is this fragment between the size parsing and the loop
    attach. *)
Definition allocate (name : string) (sz : Z) : Prog (option error) :=
  '(img, err) ← call (OpenFile name (Z.lor O_WRONLY O_CREATE) perm_0666);
  match err with
  | Some e => mret (Some ("Couldn't open image file: " +:+ e))
  | None =>
      err ← call (Truncate img sz);
      match err with
      | Some e => mret (Some ("Couldn't resize image file: " +:+ e))
      | None => call (Close img);; mret None
      end
  end.

(** [PreNoMachine] written with [allocate] for its middle part. *)
Definition PreNoMachine_via_allocate (i : ImageFileAction)
    (context : DebosContext)
  : Prog (option error * ImageFileAction * DebosContext) :=
  '(sz, err) ← call (FromHumanSize (ImageSize i));
  match err with
  | Some _ =>
      mret (Some ("Failed to parse image size: " +:+ ImageSize i), i, context)
  | None =>
      let i := set_size i sz in
      call (Printf "PreNoMachine: %s, size: %d" [ArgS (ImageName i); ArgD (size i)]);;
      err ← allocate (ImageName i) (size i);
      match err with
      | Some e => mret (Some e, i, context)
      | None =>
          '(dev, err) ← call (Attach (ImageName i) 0 false);
          let i := set_loopDev i dev in
          match err with
          | Some _ =>
              mret (Some "Failed to setup loop device - need sudo?", i, context)
          | None =>
              p ← call (Path (loopDev i));
              let context := set_Image context p in
              let i := set_usingLoop i true in
              mret (None, i, context)
          end
      end
  end.

(** ** The caller's view *)

(** Modelled from the spec: the orchestrator that invokes the phases is not
    part of this file.  It holds the action behind a pointer, together with
    the shared context and the argument list of the sandboxed execution, and
    calls one phase at a time.  A method with a pointer receiver updates the
    held action; a method with a value receiver is given a copy, so the held
    action is after the call what it was before. *)
Record Pipeline : Type := mkPipeline {
  held : ImageFileAction;
  shared : DebosContext;
  machine_args : list string
}.

Definition do_PreNoMachine (s : Pipeline) : Prog (option error * Pipeline) :=
  '(err, i, c) ← PreNoMachine (held s) (shared s);
  mret (err, {| held := i; shared := c; machine_args := machine_args s |}).

Definition do_PreMachine (s : Pipeline) : Prog (option error * Pipeline) :=
  '(err, c, a) ← PreMachine (held s) (shared s) (machine_args s);
  mret (err, {| held := held s; shared := c; machine_args := a |}).

Definition do_Run (s : Pipeline) : Prog (option error * Pipeline) :=
  '(err, c) ← Run (held s) (shared s);
  mret (err, {| held := held s; shared := c; machine_args := machine_args s |}).

Definition do_Cleanup (s : Pipeline) : Prog (option error * Pipeline) :=
  err ← Cleanup (held s) (shared s);
  mret (err, s).

(** ** Reading traces *)

(** The error component of an answer ([None] for requests that return no
    error). *)
Definition answer_error {R : Type} (c : Call R) : R -> option error :=
  match c in Call T return T -> option error with
  | FromHumanSize _ => fun r => r.2
  | Printf _ _ => fun _ => None
  | LogStart _ => fun _ => None
  | OpenFile _ _ _ => fun r => r.2
  | Open _ => fun r => r.2
  | Truncate _ _ => fun r => r
  | Close _ => fun r => r
  | Attach _ _ _ => fun r => r.2
  | Path _ => fun _ => None
  | Detach _ => fun r => r
  | Remove _ => fun r => r
  | CreateImage _ _ => fun r => r.2
  | Flock _ _ => fun r => r
  | CommandRun _ _ => fun r => r
  | EvalSymlinks _ => fun r => r.2
  | PathJoin _ => fun _ => None
  | MkdirAll _ _ => fun r => r
  | Mount _ _ _ _ _ => fun r => r
  | Unmount _ _ => fun r => r
  | Sleep _ => fun _ => None
  end.

Definition succeeded (e : Event) : bool :=
  let 'Ev c r := e in
  match answer_error c r with None => true | Some _ => false end.

Definition failed (e : Event) : bool := negb (succeeded e).

Definition is_FromHumanSize (e : Event) : bool :=
  let 'Ev c _ := e in match c with FromHumanSize _ => true | _ => false end.
Definition is_Close (e : Event) : bool :=
  let 'Ev c _ := e in match c with Close _ => true | _ => false end.
Definition is_Attach (e : Event) : bool :=
  let 'Ev c _ := e in match c with Attach _ _ _ => true | _ => false end.
Definition is_Detach (e : Event) : bool :=
  let 'Ev c _ := e in match c with Detach _ => true | _ => false end.
Definition is_Remove (e : Event) : bool :=
  let 'Ev c _ := e in match c with Remove _ => true | _ => false end.
Definition is_Flock (e : Event) : bool :=
  let 'Ev c _ := e in match c with Flock _ _ => true | _ => false end.
Definition is_CommandRun (e : Event) : bool :=
  let 'Ev c _ := e in match c with CommandRun _ _ => true | _ => false end.
Definition is_MkdirAll (e : Event) : bool :=
  let 'Ev c _ := e in match c with MkdirAll _ _ => true | _ => false end.
Definition is_Mount (e : Event) : bool :=
  let 'Ev c _ := e in match c with Mount _ _ _ _ _ => true | _ => false end.
Definition is_Unmount (e : Event) : bool :=
  let 'Ev c _ := e in match c with Unmount _ _ => true | _ => false end.
Definition is_Sleep (e : Event) : bool :=
  let 'Ev c _ := e in match c with Sleep _ => true | _ => false end.

(** Events of a kind that succeeded, and that failed. *)
Definition ok (p : Event -> bool) (e : Event) : bool := p e && succeeded e.
Definition ko (p : Event -> bool) (e : Event) : bool := p e && failed e.

(** Number of events of a kind in a trace. *)
Fixpoint count (p : Event -> bool) (tr : list Event) : nat :=
  match tr with
  | [] => O
  | e :: tr' => ((if p e then 1 else 0) + count p tr')%nat
  end.

(** The events strictly before, and strictly after, the first event of a
    kind. *)
Fixpoint before (p : Event -> bool) (tr : list Event) : list Event :=
  match tr with
  | [] => []
  | e :: tr' => if p e then [] else e :: before p tr'
  end.

Fixpoint after (p : Event -> bool) (tr : list Event) : list Event :=
  match tr with
  | [] => []
  | e :: tr' => if p e then tr' else after p tr'
  end.

(** ** A scripted environment

    An environment whose answers are fixed in advance by a [Script].  Its
    state counts the [Remove] requests answered so far, so that the answer
    to a removal can depend on how many came before.  It serves to run the
    action on concrete inputs. *)
Module Sim.

Record Script : Type := mkScript {
  parse : string -> Z * option error;
  open_file : File * option error;
  open_dev : File * option error;
  truncate : option error;
  attach : Device * option error;
  detach : option error;
  remove : nat -> option error;
  create_image : string * option error;
  flock : option error;
  command : option error;
  mkdir_all : option error;
  mount : option error;
  unmount : option error
}.

Definition device_path (d : Device) : string :=
  match number d with
  | 0%N => "/dev/loop0"
  | 1%N => "/dev/loop1"
  | _ => "/dev/loop7"
  end.

Definition join (elem : list string) : string := String.concat "/" elem.

Definition answer (s : Script) (R : Type) (c : Call R) (n : nat) : R * nat :=
  match c in Call T return T * nat with
  | FromHumanSize sz => (parse s sz, n)
  | Printf _ _ => (tt, n)
  | LogStart _ => (tt, n)
  | OpenFile _ _ _ => (open_file s, n)
  | Open _ => (open_dev s, n)
  | Truncate _ _ => (truncate s, n)
  | Close _ => (None, n)
  | Attach _ _ _ => (attach s, n)
  | Path d => (device_path d, n)
  | Detach _ => (detach s, n)
  | Remove _ => (remove s n, S n)
  | CreateImage _ _ => (create_image s, n)
  | Flock _ _ => (flock s, n)
  | CommandRun _ _ => (command s, n)
  | EvalSymlinks p => ((p, None), n)
  | PathJoin elem => (join elem, n)
  | MkdirAll _ _ => (mkdir_all s, n)
  | Mount _ _ _ _ _ => (mount s, n)
  | Unmount _ _ => (unmount s, n)
  | Sleep _ => (tt, n)
  end.

Definition os (s : Script) : OS := {| World := nat; sys := answer s |}.

(** Sizes the scripted parser knows. *)
Definition parse_known (sz : string) : Z * option error :=
  if (sz =? "1GB")%string then (1000000000, None)
  else if (sz =? "100MB")%string then (100000000, None)
  else (-1, Some ("invalid size: '" +:+ sz +:+ "'")).

(** Every request succeeds. *)
Definition fine : Script :=
  {| parse := parse_known;
     open_file := (3%nat, None);
     open_dev := (4%nat, None);
     truncate := None;
     attach := (mkDevice 0, None);
     detach := None;
     remove := fun _ => None;
     create_image := ("/dev/disk/by-id/virtio-fakedisk-0", None);
     flock := None;
     command := None;
     mkdir_all := None;
     mount := None;
     unmount := None |}.

Definition with_unmount (s : Script) (v : option error) : Script :=
  {| parse := parse s; open_file := open_file s; open_dev := open_dev s;
     truncate := truncate s; attach := attach s; detach := detach s;
     remove := remove s; create_image := create_image s; flock := flock s;
     command := command s; mkdir_all := mkdir_all s; mount := mount s;
     unmount := v |}.

Definition with_mount (s : Script) (v : option error) : Script :=
  {| parse := parse s; open_file := open_file s; open_dev := open_dev s;
     truncate := truncate s; attach := attach s; detach := detach s;
     remove := remove s; create_image := create_image s; flock := flock s;
     command := command s; mkdir_all := mkdir_all s; mount := v;
     unmount := unmount s |}.

Definition with_mkdir_all (s : Script) (v : option error) : Script :=
  {| parse := parse s; open_file := open_file s; open_dev := open_dev s;
     truncate := truncate s; attach := attach s; detach := detach s;
     remove := remove s; create_image := create_image s; flock := flock s;
     command := command s; mkdir_all := v; mount := mount s;
     unmount := unmount s |}.

Definition with_attach (s : Script) (v : Device * option error) : Script :=
  {| parse := parse s; open_file := open_file s; open_dev := open_dev s;
     truncate := truncate s; attach := v; detach := detach s;
     remove := remove s; create_image := create_image s; flock := flock s;
     command := command s; mkdir_all := mkdir_all s; mount := mount s;
     unmount := unmount s |}.

Definition with_remove (s : Script) (v : nat -> option error) : Script :=
  {| parse := parse s; open_file := open_file s; open_dev := open_dev s;
     truncate := truncate s; attach := attach s; detach := detach s;
     remove := v; create_image := create_image s; flock := flock s;
     command := command s; mkdir_all := mkdir_all s; mount := mount s;
     unmount := unmount s |}.

End Sim.

(** Two recipes used as concrete inputs. *)
Definition image_file : debos.BaseAction :=
  {| Action := "image-file"; Description := "" |}.

Definition debian_ext4 : ImageFileAction :=
  configured image_file "debian.img" "1GB" "ext4" "debian".

Definition mac_hfsx : ImageFileAction :=
  configured image_file "mac.img" "1GB" "hfsx" "mac".

Definition scratch : DebosContext :=
  {| Scratchdir := "/scratch"; Rootdir := "/scratch/root";
     Image := ""; ImageMntDir := "" |}.

(** ** A file store *)

(** Modelled from the spec: what [os.OpenFile], [Truncate] and [Close] do to
    the files of the host is decided by the operating system, not by this
    repository.  The store follows the spec's description of the allocator
    ("opens (creating if absent) the file, truncates/extends it to exactly
    sizeBytes, then closes it") and POSIX: opening with O_CREATE creates an
    empty regular file when the path is free and leaves an existing file's
    contents alone unless O_TRUNC is given; a directory cannot be opened for
    writing; truncate sets the length to exactly the requested size, cutting
    the tail or padding with zero bytes, and refuses a negative size. *)
Module Posix.

Inductive Node : Type :=
| Regular (data : list Byte.byte)
| Directory.

Record Store : Type := mkStore {
  files : gmap string Node;
  open_files : gmap nat string
}.

Definition has_flag (flag bit : Z) : bool := negb (Z.land flag bit =? 0).

(** Modelled from the spec: [os.OpenFile] and [os.Open] ("opens (creating
    if absent) the file").  The new descriptor is one that is not in use. *)
Definition open (st : Store) (name : string) (flag : Z)
  : (File * option error) * Store :=
  let fd := fresh (dom (open_files st)) in
  let opened fs :=
    ((fd, None), {| files := fs; open_files := <[fd := name]> (open_files st) |}) in
  match files st !! name with
  | Some Directory =>
      if has_flag flag 3 then
        ((O, Some ("open " +:+ name +:+ ": is a directory")), st)
      else opened (files st)
  | Some (Regular data) =>
      if has_flag flag O_TRUNC then opened (<[name := Regular []]> (files st))
      else opened (files st)
  | None =>
      if has_flag flag O_CREATE then opened (<[name := Regular []]> (files st))
      else ((O, Some ("open " +:+ name +:+ ": no such file or directory")), st)
  end.

(** Modelled from the spec: [Truncate] ("truncates/extends it to exactly
    sizeBytes"). *)
Definition ftruncate (st : Store) (f : File) (sz : Z) : option error * Store :=
  match open_files st !! f with
  | None => (Some "truncate: file already closed", st)
  | Some name =>
      if sz <? 0 then (Some ("truncate " +:+ name +:+ ": invalid argument"), st)
      else
        match files st !! name with
        | Some (Regular data) =>
            (None,
             {| files := <[name := Regular (resize (Z.to_nat sz) Byte.x00 data)]>
                           (files st);
                open_files := open_files st |})
        | _ => (Some ("truncate " +:+ name +:+ ": invalid argument"), st)
        end
  end.

(** Modelled from the spec: [Close] ("then closes it"): the descriptor is
    free again. *)
Definition close (st : Store) (f : File) : option error * Store :=
  match open_files st !! f with
  | None => (Some "close: file already closed", st)
  | Some _ =>
      (None, {| files := files st; open_files := delete f (open_files st) |})
  end.

(** Requests that do not concern the file store are refused. *)
Definition refused : option error := Some "function not implemented".

Definition answer (R : Type) (c : Call R) (st : Store) : R * Store :=
  match c in Call T return T * Store with
  | FromHumanSize _ => ((-1, refused), st)
  | Printf _ _ => (tt, st)
  | LogStart _ => (tt, st)
  | OpenFile name flag _ => open st name flag
  | Open name => open st name 0
  | Truncate f sz => ftruncate st f sz
  | Close f => close st f
  | Attach _ _ _ => ((mkDevice 0, refused), st)
  | Path _ => ("", st)
  | Detach _ => (refused, st)
  | Remove _ => (refused, st)
  | CreateImage _ _ => (("", refused), st)
  | Flock _ _ => (refused, st)
  | CommandRun _ _ => (refused, st)
  | EvalSymlinks p => ((p, None), st)
  | PathJoin elem => (String.concat "/" elem, st)
  | MkdirAll _ _ => (refused, st)
  | Mount _ _ _ _ _ => (refused, st)
  | Unmount _ _ => (refused, st)
  | Sleep _ => (tt, st)
  end.

Definition os : OS := {| World := Store; sys := answer |}.

(** The bytes of the regular file at a path (none if there is no such
    file). *)
Definition contents (st : Store) (name : string) : list Byte.byte :=
  match files st !! name with
  | Some (Regular data) => data
  | _ => []
  end.

(** A store with a six-byte image file and nothing open. *)
Definition six_bytes : Store :=
  {| files := {[ "debian.img" :=
                   Regular [Byte.x01; Byte.x02; Byte.x03;
                            Byte.x04; Byte.x05; Byte.x06] ]};
     open_files := ∅ |}.

End Posix.

(** ** Shapes of traces

    Pieces of traces that the statements below refer to. *)

(** The trace of one failed removal: the attempt, the log line, the
    one-second sleep. *)
Definition failed_round (d : Device) (e : error) : list Event :=
  [Ev (Remove d) (Some e);
   Ev (Printf "Loop dev couldn't remove %s, waiting" [ArgErr e]) tt;
   Ev (Sleep Second) tt].

Definition failed_rounds (d : Device) (errs : list error) : list Event :=
  concat (map (failed_round d) errs).

(** The value of [err] after the rounds: that of the last failed attempt. *)
Definition last_error (err0 : option error) (errs : list error) : option error :=
  fold_left (fun _ e => Some e) errs err0.

Definition unmount_warnings (mnt : string) (e : error) : list Event :=
  [Ev (Printf "Warning: Failed to get unmount %s: %s" [ArgS mnt; ArgErr e]) tt;
   Ev (Printf "Unmount failure can cause images being incomplete!" []) tt].

Definition remove_warning (r : option error) : list Event :=
  match r with
  | Some e => [Ev (Printf "WARNING: Failed to remove loop device: %s" [ArgErr e]) tt]
  | None => []
  end.

(** What [formatFile] does when it runs the command line [cmd] on the image:
    one request, the tool call with the image path appended, whose answer
    is the method's result. *)
Definition runs_command (os : OS) (w : World os) (i : ImageFileAction)
    (context : DebosContext) (cmd : list string) : Prop :=
  trace os (formatFile i context) w =
    [Ev (CommandRun "Formatting file" (cmd ++ [Image context]))
        (result os (formatFile i context) w)].

(** The first two requests of every [Run]. *)
Definition Run_prologue (i : ImageFileAction) (context : DebosContext)
  : list Event :=
  [Ev (LogStart (BaseAction i)) tt;
   Ev (Printf ("Run: " +:+ Image context) []) tt].

(** What the formatting step leaves in a trace when it succeeds: nothing, or
    one tool call that answered without error. *)
Definition formatted (fmt : list Event) : Prop :=
  fmt = [] \/ exists cmd, fmt = [Ev (CommandRun "Formatting file" cmd) None].

(** The file-system types handed to [syscall.Mount] in a trace. *)
Definition mount_fstype (e : Event) : option string :=
  let 'Ev c _ := e in
  match c with Mount _ _ fstype _ _ => Some fstype | _ => None end.

Definition mount_fstypes (tr : list Event) : list string :=
  omap mount_fstype tr.

(** The descriptor an event closes, and the descriptor on which an event
    took the exclusive lock. *)
Definition closes (f : File) (e : Event) : bool :=
  let 'Ev c _ := e in
  match c with Close g => Nat.eqb f g | _ => false end.

Definition locks (f : File) (e : Event) : bool :=
  let 'Ev c r := e in
  match c in Call T return T -> bool with
  | Flock fd how =>
      fun r => (fd =? Fd f) && (how =? LOCK_EX)
               && match r with None => true | Some _ => false end
  | _ => fun _ => false
  end r.

(** The descriptor answered by a successful [os.Open], if the trace has
    one. *)
Definition opened_fd (e : Event) : option File :=
  let 'Ev c r := e in
  match c in Call T return T -> option File with
  | Open _ => fun r => match r.2 with None => Some r.1 | Some _ => None end
  | _ => fun _ => None
  end r.

Definition opened (tr : list Event) : option File :=
  head (omap opened_fd tr).

(** The requests of [PreNoMachine] up to and including the close of the
    sized image file. *)
Definition allocated (i : ImageFileAction) (sz : Z) (img : File)
    (c : option error) : list Event :=
  [Ev (FromHumanSize (ImageSize i)) (sz, None);
   Ev (Printf "PreNoMachine: %s, size: %d" [ArgS (ImageName i); ArgD sz]) tt;
   Ev (OpenFile (ImageName i) (Z.lor O_WRONLY O_CREATE) perm_0666) (img, None);
   Ev (Truncate img sz) None;
   Ev (Close img) c].

(** How the removal part of a cleanup ends: with the successful attempt
    when there was one, with the warning that carries the last error
    otherwise. *)
Definition removal_end (d : Device) (r : option error) : list Event :=
  match r with
  | None => [Ev (Remove d) None]
  | Some e =>
      [Ev (Printf "WARNING: Failed to remove loop device: %s" [ArgErr e]) tt]
  end.

(** The descriptors and operations of the [syscall.Flock] requests of a
    trace. *)
Definition flock_request (e : Event) : option (Z * Z) :=
  let 'Ev c _ := e in
  match c with Flock fd how => Some (fd, how) | _ => None end.

Definition flock_requests (tr : list Event) : list (Z * Z) :=
  omap flock_request tr.

(** The paths of the [os.Open] requests of a trace. *)
Definition opened_path (e : Event) : option string :=
  let 'Ev c _ := e in match c with Open name => Some name | _ => None end.

Definition opened_paths (tr : list Event) : list string := omap opened_path tr.

(** ** Concrete situations *)

(** The action and the context as a successful direct preparation and run
    leave them: the loop device is owned, the image is mounted. *)
Definition owned : ImageFileAction :=
  set_usingLoop (set_size debian_ext4 1000000000) true.

Definition mounted : DebosContext :=
  {| Scratchdir := "/scratch"; Rootdir := "/scratch/root";
     Image := "/dev/loop0"; ImageMntDir := "/scratch/mnt" |}.

(** The context as a successful direct preparation leaves it. *)
Definition prepared : DebosContext := set_Image scratch "/dev/loop0".

(** An environment in which the mount directory cannot be created and the
    mount fails. *)
Definition no_mount_dir : Sim.Script :=
  Sim.with_mount
    (Sim.with_mkdir_all Sim.fine (Some "mkdir /scratch/mnt: permission denied"))
    (Some "no such file or directory").

(** An environment in which the loop device cannot be attached; the library
    still hands back a device value next to the error. *)
Definition no_loop : Sim.Script :=
  Sim.with_attach Sim.fine
    (mkDevice 7, Some "could not get free device: permission denied").

(** The pipeline before any phase has run, for the ext4 recipe. *)
Definition fresh_pipeline : Pipeline :=
  {| held := debian_ext4; shared := scratch; machine_args := ["debos"] |}.

(** An environment in which the unmount is refused. *)
Definition busy : Sim.Script :=
  Sim.with_unmount Sim.fine (Some "device or resource busy").

(** Environments in which the first two removals fail, and in which every
    removal fails. *)
Definition slow_removal : Sim.Script :=
  Sim.with_remove Sim.fine
    (fun n => if (n <? 2)%nat then Some "device or resource busy" else None).

Definition stuck_removal : Sim.Script :=
  Sim.with_remove Sim.fine (fun _ => Some "device or resource busy").

(** ** The cleanup claim as worded

    One unmount attempt, and one release attempt exactly when the action
    owns the loop device.  A release begins with the detach request, so its
    attempts are counted by the [Detach] events. *)
Definition released_iff_owned (i : ImageFileAction) (tr : list Event) : Prop :=
  count is_Unmount tr = 1%nat /\
  (count is_Detach tr = 1%nat <-> usingLoop i = true).

(** The store after a successful allocation of [sz] bytes at [name]: the
    file holds the first [sz] bytes it had, padded with zero bytes up to
    [sz]; nothing else changes. *)
Definition sized (st : Posix.Store) (name : string) (sz : Z) : Posix.Store :=
  {| Posix.files :=
       <[name := Posix.Regular
                   (resize (Z.to_nat sz) Byte.x00 (Posix.contents st name))]>
         (Posix.files st);
     Posix.open_files := Posix.open_files st |}.

(** ** A host with files *)

(** Modelled from the spec: the file store above, completed so that a whole
    direct preparation can run on it.  File requests go to the store; the
    size text is read by the given parser; the loop library attaches device
    0 and gives its path.  None of these is part of this repository. *)
Definition host_answer (parse : string -> Z * option error) (R : Type)
    (c : Call R) (st : Posix.Store) : R * Posix.Store :=
  match c in Call T return T * Posix.Store -> T * Posix.Store with
  | FromHumanSize sz => fun _ => (parse sz, st)
  | Attach _ _ _ => fun _ => ((mkDevice 0, None), st)
  | Path d => fun _ => (Sim.device_path d, st)
  | _ => fun d => d
  end (Posix.answer R c st).

Definition host (parse : string -> Z * option error) : OS :=
  {| World := Posix.Store; sys := host_answer parse |}.

(** A parser for a few small sizes in bytes. *)
Definition parse_bytes (sz : string) : Z * option error :=
  if (sz =? "4B")%string then (4, None)
  else if (sz =? "8B")%string then (8, None)
  else (-1, Some ("invalid size: '" +:+ sz +:+ "'")).

(** Recipes for a four-byte image, at a file path and at a path that is a
    directory, and the stores they meet. *)
Definition four_bytes : ImageFileAction :=
  configured image_file "debian.img" "4B" "ext4" "debian".

Definition into_directory : ImageFileAction :=
  configured image_file "images" "4B" "ext4" "debian".

Definition images_directory : Posix.Store :=
  {| Posix.files := {[ "images" := Posix.Directory ]};
     Posix.open_files := ∅ |}.

Definition empty_store : Posix.Store :=
  {| Posix.files := ∅; Posix.open_files := ∅ |}.

(** ** The allocation claim as worded

    For every path and size, after the allocation has been made twice with
    the same arguments, the path holds a regular file of exactly the
    requested size. *)
Definition allocated_exactly (parse : string -> Z * option error)
    (st : Posix.Store) (i : ImageFileAction) (context : DebosContext) : Prop :=
  let st1 := final (host parse) (PreNoMachine i context) st in
  let st2 := final (host parse) (PreNoMachine i context) st1 in
  exists data : list Byte.byte,
    Posix.files st2 !! ImageName i = Some (Posix.Regular data) /\
    Z.of_nat (length data) = (parse (ImageSize i)).1.

(** ** Proof tools *)

(** Unfold a program down to its requests. *)
Ltac prog :=
  unfold result, final, trace, defer, call, mbind, mret, Prog_bind, Prog_ret;
  simpl.

(** Name the answer of the next request. *)
Ltac answer :=
  match goal with
  | |- context [sys ?os ?c ?w] =>
      let r := fresh "r" in
      let w' := fresh "w" in
      destruct (sys os c w) as [r w'] eqn:?; simpl
  end.


(** ** More readers of traces *)

Definition is_OpenFile (e : Event) : bool :=
  let 'Ev c _ := e in match c with OpenFile _ _ _ => true | _ => false end.
Definition is_Truncate (e : Event) : bool :=
  let 'Ev c _ := e in match c with Truncate _ _ => true | _ => false end.
Definition is_CreateImage (e : Event) : bool :=
  let 'Ev c _ := e in match c with CreateImage _ _ => true | _ => false end.
Definition is_EvalSymlinks (e : Event) : bool :=
  let 'Ev c _ := e in match c with EvalSymlinks _ => true | _ => false end.

(** The error an event answered, and whether it is a given one. *)
Definition ev_error (e : Event) : option error :=
  let 'Ev c r := e in answer_error c r.

Definition answers (err : error) (e : Event) : bool :=
  match ev_error e with
  | Some x => (x =? err)%string
  | None => false
  end.

(** A log line that carries a given error among its arguments. *)
Definition is_ArgErr (err : error) (a : Arg) : bool :=
  match a with ArgErr x => (x =? err)%string | _ => false end.

Definition logs (err : error) (e : Event) : bool :=
  let 'Ev c _ := e in
  match c with Printf _ v => existsb (is_ArgErr err) v | _ => false end.

(** The loop devices a trace asks to detach or remove, and the devices it
    attached successfully. *)
Definition loop_device (e : Event) : option Device :=
  let 'Ev c _ := e in
  match c with Detach d => Some d | Remove d => Some d | _ => None end.

Definition loop_devices (tr : list Event) : list Device := omap loop_device tr.

Definition attached_device (e : Event) : option Device :=
  let 'Ev c r := e in
  match c in Call T return T -> option Device with
  | Attach _ _ _ =>
      fun r => match r.2 with None => Some r.1 | Some _ => None end
  | _ => fun _ => None
  end r.

Definition attached_devices (tr : list Event) : list Device :=
  omap attached_device tr.

(** The answers of [Path], of [path.Join] and of the removal attempts. *)
Definition path_answer (e : Event) : option string :=
  let 'Ev c r := e in
  match c in Call T return T -> option string with
  | Path _ => fun r => Some r
  | _ => fun _ => None
  end r.

Definition path_answers (tr : list Event) : list string := omap path_answer tr.

Definition remove_answer (e : Event) : option (option error) :=
  let 'Ev c r := e in
  match c in Call T return T -> option (option error) with
  | Remove _ => fun r => Some r
  | _ => fun _ => None
  end r.

Definition remove_answers (tr : list Event) : list (option error) :=
  omap remove_answer tr.

(** The paths a trace opens, the sources and targets it mounts, the targets
    it unmounts, and the durations it sleeps. *)
Definition open_name (e : Event) : option string :=
  let 'Ev c _ := e in match c with Open name => Some name | _ => None end.

Definition open_names (tr : list Event) : list string := omap open_name tr.

Definition mount_source (e : Event) : option string :=
  let 'Ev c _ := e in
  match c with Mount source _ _ _ _ => Some source | _ => None end.

Definition mount_sources (tr : list Event) : list string := omap mount_source tr.

Definition mount_target (e : Event) : option string :=
  let 'Ev c _ := e in
  match c with Mount _ target _ _ _ => Some target | _ => None end.

Definition mount_targets (tr : list Event) : list string := omap mount_target tr.

Definition unmount_target (e : Event) : option string :=
  let 'Ev c _ := e in
  match c with Unmount target _ => Some target | _ => None end.

Definition unmount_targets (tr : list Event) : list string :=
  omap unmount_target tr.

Definition sleep_duration (e : Event) : option Z :=
  let 'Ev c _ := e in match c with Sleep d => Some d | _ => None end.

Definition sleep_durations (tr : list Event) : list Z := omap sleep_duration tr.

(** What [filepath.EvalSymlinks] answered as the resolved path. *)
Definition resolved_path (e : Event) : option string :=
  let 'Ev c r := e in
  match c in Call T return T -> option string with
  | EvalSymlinks _ => fun r => Some r.1
  | _ => fun _ => None
  end r.

Definition resolved_paths (tr : list Event) : list string :=
  omap resolved_path tr.

(** The command lines a trace runs. *)
Definition command_line (e : Event) : option (list string) :=
  let 'Ev c _ := e in
  match c with CommandRun _ cmdline => Some cmdline | _ => None end.

Definition command_lines (tr : list Event) : list (list string) :=
  omap command_line tr.

(** Requests that belong to one phase only. *)
Definition is_preparation (e : Event) : bool :=
  is_FromHumanSize e || is_OpenFile e || is_Truncate e || is_Attach e
  || is_CreateImage e.

Definition is_run (e : Event) : bool :=
  let 'Ev c _ := e in
  match c with
  | Open _ => true
  | Flock _ _ => true
  | CommandRun _ _ => true
  | EvalSymlinks _ => true
  | MkdirAll _ _ => true
  | Mount _ _ _ _ _ => true
  | _ => false
  end.

Definition is_cleanup (e : Event) : bool :=
  is_Unmount e || is_Detach e || is_Remove e || is_Sleep e.

(** ** More scripted environments *)

Definition with_truncate (s : Sim.Script) (v : option error) : Sim.Script :=
  {| Sim.parse := Sim.parse s; Sim.open_file := Sim.open_file s;
     Sim.open_dev := Sim.open_dev s; Sim.truncate := v;
     Sim.attach := Sim.attach s; Sim.detach := Sim.detach s;
     Sim.remove := Sim.remove s; Sim.create_image := Sim.create_image s;
     Sim.flock := Sim.flock s; Sim.command := Sim.command s;
     Sim.mkdir_all := Sim.mkdir_all s; Sim.mount := Sim.mount s;
     Sim.unmount := Sim.unmount s |}.

Definition with_create_image (s : Sim.Script) (v : string * option error)
  : Sim.Script :=
  {| Sim.parse := Sim.parse s; Sim.open_file := Sim.open_file s;
     Sim.open_dev := Sim.open_dev s; Sim.truncate := Sim.truncate s;
     Sim.attach := Sim.attach s; Sim.detach := Sim.detach s;
     Sim.remove := Sim.remove s; Sim.create_image := v;
     Sim.flock := Sim.flock s; Sim.command := Sim.command s;
     Sim.mkdir_all := Sim.mkdir_all s; Sim.mount := Sim.mount s;
     Sim.unmount := Sim.unmount s |}.

Definition with_command (s : Sim.Script) (v : option error) : Sim.Script :=
  {| Sim.parse := Sim.parse s; Sim.open_file := Sim.open_file s;
     Sim.open_dev := Sim.open_dev s; Sim.truncate := Sim.truncate s;
     Sim.attach := Sim.attach s; Sim.detach := Sim.detach s;
     Sim.remove := Sim.remove s; Sim.create_image := Sim.create_image s;
     Sim.flock := Sim.flock s; Sim.command := v;
     Sim.mkdir_all := Sim.mkdir_all s; Sim.mount := Sim.mount s;
     Sim.unmount := Sim.unmount s |}.

(** The full disk: the image file cannot be resized. *)
Definition disk_full : Sim.Script :=
  with_truncate Sim.fine (Some "truncate debian.img: no space left on device").

(** The machine cannot create the image. *)
Definition no_machine_image : Sim.Script :=
  with_create_image Sim.fine ("", Some "image already exists: debian.img").

(** The formatting tool fails. *)
Definition mkfs_fails : Sim.Script :=
  with_command Sim.fine (Some "exit status 1").

(** The mount is refused. *)
Definition mount_refused : Sim.Script :=
  Sim.with_mount Sim.fine (Some "invalid argument").

(** The scripted environment, except that symbolic links cannot be
    resolved: the resolver answers the empty path and an error. *)
Definition broken_links_answer (R : Type) (c : Call R) (n : nat) : R * nat :=
  match c in Call T return T * nat -> T * nat with
  | EvalSymlinks p =>
      fun _ => (("", Some ("lstat " +:+ p +:+ ": no such file or directory")), n)
  | _ => fun d => d
  end (Sim.answer Sim.fine R c n).

Definition broken_links : OS := {| World := nat; sys := broken_links_answer |}.

(** Recipes with a size that does not parse, and with no file system. *)
Definition bad_size : ImageFileAction :=
  configured image_file "debian.img" "lots" "ext4" "debian".

Definition unformatted : ImageFileAction :=
  configured image_file "raw.img" "100MB" "none" "".

(** Requests that a cleanup has no business making, and requests that the
    delegated preparation has no business making on the host. *)
Definition foreign_to_cleanup (e : Event) : bool :=
  is_preparation e || is_run e || is_Close e.

Definition host_side (e : Event) : bool :=
  is_run e || is_cleanup e || is_OpenFile e || is_Truncate e || is_Close e
  || is_Attach e.

(** The sizes the parser answered, and the names and sizes of the images
    asked of the machine. *)
Definition parsed_size (e : Event) : option Z :=
  let 'Ev c r := e in
  match c in Call T return T -> option Z with
  | FromHumanSize _ => fun r => Some r.1
  | _ => fun _ => None
  end r.

Definition parsed_sizes (tr : list Event) : list Z := omap parsed_size tr.

Definition created_image (e : Event) : option (string * Z) :=
  let 'Ev c _ := e in
  match c with CreateImage name sz => Some (name, sz) | _ => None end.

Definition created_images (tr : list Event) : list (string * Z) :=
  omap created_image tr.

(** The scripted environment, except that closing a file fails. *)
Definition close_fails_answer (R : Type) (c : Call R) (n : nat) : R * nat :=
  match c in Call T return T * nat -> T * nat with
  | Close _ => fun _ => (Some "close: input/output error", n)
  | _ => fun d => d
  end (Sim.answer Sim.fine R c n).

Definition close_fails : OS := {| World := nat; sys := close_fails_answer |}.

(** ** Facts about executions *)

Lemma exec_bind (os : OS) {A B : Type} (p : Prog A) (f : A -> Prog B)
    (w : World os) :
  exec os (bind p f) w =
    let '(a, w1, t1) := exec os p w in
    let '(b, w2, t2) := exec os (f a) w1 in
    (b, w2, t1 ++ t2).
Proof.
  revert w. induction p as [a | R c k IH]; intros w; simpl.
  - destruct (exec os (f a) w) as [[b w2] t2]. reflexivity.
  - destruct (sys os c w) as [r w1]. rewrite IH.
    destruct (exec os (k r) w1) as [[a w2] t1].
    destruct (exec os (f a) w2) as [[b w3] t2]. reflexivity.
Qed.

Lemma count_app (p : Event -> bool) (t1 t2 : list Event) :
  count p (t1 ++ t2) = (count p t1 + count p t2)%nat.
Proof.
  induction t1 as [| e t1 IH]; simpl; [reflexivity |].
  rewrite IH. lia.
Qed.


Lemma result_bind (os : OS) {A B : Type} (p : Prog A) (f : A -> Prog B)
    (w : World os) :
  result os (bind p f) w = result os (f (result os p w)) (final os p w).
Proof.
  unfold result, final. rewrite exec_bind.
  destruct (exec os p w) as [[a w1] t1]. simpl.
  destruct (exec os (f a) w1) as [[b w2] t2]. reflexivity.
Qed.

Lemma trace_bind (os : OS) {A B : Type} (p : Prog A) (f : A -> Prog B)
    (w : World os) :
  trace os (bind p f) w =
    trace os p w ++ trace os (f (result os p w)) (final os p w).
Proof.
  unfold trace, result, final. rewrite exec_bind.
  destruct (exec os p w) as [[a w1] t1]. simpl.
  destruct (exec os (f a) w1) as [[b w2] t2]. reflexivity.
Qed.

(** *** The removal loop *)

Lemma count_failed_rounds (d : Device) (errs : list error) :
  count is_Remove (failed_rounds d errs) = length errs /\
  count (ok is_Remove) (failed_rounds d errs) = O /\
  count (ko is_Remove) (failed_rounds d errs) = length errs /\
  count is_Sleep (failed_rounds d errs) = length errs /\
  count is_Detach (failed_rounds d errs) = O /\
  count is_Unmount (failed_rounds d errs) = O.
Proof.
  induction errs as [| e errs IH]; simpl; [tauto |].
  unfold failed_rounds in IH. destruct IH as (-> & -> & -> & -> & -> & ->).
  tauto.
Qed.

Lemma last_error_Some (errs : list error) (e : error) :
  exists e', last_error (Some e) errs = Some e'.
Proof.
  revert e. induction errs as [| x errs IH]; intros e; simpl; eauto.
Qed.

Lemma Cleanup_loop_S (d : Device) (n : nat) (err0 : option error) :
  Cleanup_loop d (S n) err0 =
    (err ← call (Remove d);
     match err with
     | None => mret err
     | Some e =>
         call (Printf "Loop dev couldn't remove %s, waiting" [ArgErr e]);;
         call (Sleep Second);;
         Cleanup_loop d n err
     end).
Proof. reflexivity. Qed.

(** Shape of every execution of the loop with [n] iterations to go: some
    failed rounds, then either a successful attempt that ends the loop, or
    nothing when all [n] attempts failed. *)
Lemma Cleanup_loop_shape (os : OS) (d : Device) (n : nat) :
  forall (w : World os) (err0 : option error),
  exists errs : list error,
    ((length errs < n)%nat /\
     result os (Cleanup_loop d n err0) w = None /\
     trace os (Cleanup_loop d n err0) w
       = failed_rounds d errs ++ [Ev (Remove d) None]) \/
    (length errs = n /\
     result os (Cleanup_loop d n err0) w = last_error err0 errs /\
     trace os (Cleanup_loop d n err0) w = failed_rounds d errs).
Proof.
  induction n as [| n IH]; intros w err0.
  - exists []. right. split_and!; reflexivity.
  - rewrite Cleanup_loop_S. prog. answer. destruct r as [e |]; simpl.
    + do 2 answer.
      repeat match goal with u : unit |- _ => destruct u end.
      match goal with
      | |- context [exec os (Cleanup_loop d n (Some e)) ?w2] =>
          specialize (IH w2 (Some e)); unfold result, trace in IH;
          destruct (exec os (Cleanup_loop d n (Some e)) w2) as [[r' w'] tr']
      end.
      simpl in *. destruct IH as [errs [(Hl & Hr & Ht) | (Hl & Hr & Ht)]].
      * exists (e :: errs). left. subst. simpl. split_and!; [lia | reflexivity | reflexivity].
      * exists (e :: errs). right. subst. simpl. split_and!; reflexivity.
    + exists []. left. simpl. split_and!; [lia | reflexivity | reflexivity].
Qed.

Lemma Cleanup_loop_counts (os : OS) (w : World os) (d : Device) :
  let tr := trace os (Cleanup_loop d 60 None) w in
  (1 <= count is_Remove tr <= 60)%nat /\
  count is_Detach tr = O /\ count is_Unmount tr = O /\
  count (ok is_Detach) tr = O /\ count (ok is_Unmount) tr = O.
Proof.
  assert (Hsub : forall (p : Event -> bool) (t : list Event),
             count p t = O -> count (ok p) t = O).
  { intros p t. induction t as [| e t IH]; simpl; [reflexivity |].
    unfold ok at 1. destruct (p e); simpl; [discriminate | exact IH]. }
  cbv zeta.
  destruct (Cleanup_loop_shape os d 60 w None)
    as [errs [(Hl & _ & Ht) | (Hl & _ & Ht)]];
    rewrite Ht; clear Ht;
    destruct (count_failed_rounds d errs) as (C1 & _ & _ & _ & C5 & C6).
  - rewrite !count_app, C1, !Hsub by (rewrite ?count_app, ?C5, ?C6; reflexivity).
    rewrite C5, C6. simpl. split_and!; try reflexivity; lia.
  - rewrite C1, C5, C6, !Hsub by assumption. split_and!; try reflexivity; lia.
Qed.

(** *** Cleanup, path by path *)

Lemma Cleanup_paths (os : OS) (w : World os) (i : ImageFileAction)
    (context : DebosContext) :
  let tr := trace os (Cleanup i context) w in
  let r := result os (Cleanup i context) w in
  let mnt := ImageMntDir context in
  let d := loopDev i in
  (exists e, r = Some e /\
     tr = Ev (Unmount mnt 0) (Some e) :: unmount_warnings mnt e) \/
  (usingLoop i = false /\ r = None /\ tr = [Ev (Unmount mnt 0) None]) \/
  (usingLoop i = true /\ exists e, r = Some e /\
     tr = [Ev (Unmount mnt 0) None; Ev (Detach d) (Some e);
           Ev (Printf "WARNING: Failed to detach loop device: %s" [ArgErr e]) tt]) \/
  (usingLoop i = true /\ exists w1 : World os,
     r = result os (Cleanup_loop d 60 None) w1 /\
     tr = [Ev (Unmount mnt 0) None; Ev (Detach d) None]
          ++ trace os (Cleanup_loop d 60 None) w1 ++ remove_warning r).
Proof.
  unfold Cleanup.
  remember (Cleanup_loop (loopDev i) 60) as loop eqn:Hloop.
  prog. answer.
  destruct r as [e |]; simpl.
  - left. do 2 answer.
    repeat match goal with u : unit |- _ => destruct u end.
    exists e. split; reflexivity.
  - right. destruct (usingLoop i) eqn:Hu; simpl.
    + right. answer. destruct r as [e |]; simpl.
      * left. split; [reflexivity |]. answer.
        repeat match goal with u : unit |- _ => destruct u end.
        exists e. split; reflexivity.
      * right. split; [reflexivity |]. exists w1.
        rewrite exec_bind. unfold result, trace. subst loop.
        destruct (exec os (Cleanup_loop (loopDev i) 60 None) w1)
          as [[r' w2] tr'].
        simpl. destruct r' as [e |]; simpl.
        -- answer. repeat match goal with u : unit |- _ => destruct u end.
           split; reflexivity.
        -- rewrite app_nil_r. split; reflexivity.
    + left. split_and!; reflexivity.
Qed.

(** *** Run, path by path *)

Lemma formatFile_exec (os : OS) (w : World os) (i : ImageFileAction)
    (context : DebosContext) :
  (FS i = "none" /\ exec os (formatFile i context) w = (None, w, [])) \/
  (exists cmd,
     exec os (formatFile i context) w =
       let '(r, w1) := sys os (CommandRun "Formatting file" cmd) w in
       (r, w1, [Ev (CommandRun "Formatting file" cmd) r])).
Proof.
  unfold formatFile, formatFile_switch.
  repeat match goal with
         | |- context [(FS i =? ?s)%string] =>
             destruct (String.eqb_spec (FS i) s)
         end;
    simpl; try (left; split; [assumption | reflexivity]).
  all: right; prog;
    match goal with
    | |- context [sys _ (CommandRun _ (?a :: ?l)) _] => exists (a :: l)
    end;
    answer; destruct r; reflexivity.
Qed.

Lemma Run_paths (os : OS) (w : World os) (i : ImageFileAction)
    (context : DebosContext) :
  let tr := trace os (Run i context) w in
  let r := result os (Run i context) w in
  let img := Image context in
  (exists f e, r = (Some e, context) /\
     tr = Run_prologue i context ++ [Ev (Open img) (f, Some e)]) \/
  (exists f e c, r = (Some e, context) /\
     tr = Run_prologue i context ++
          [Ev (Open img) (f, None); Ev (Flock (Fd f) LOCK_EX) (Some e);
           Ev (Close f) c]) \/
  (exists f cmd e c, r = (Some e, context) /\
     tr = Run_prologue i context ++
          [Ev (Open img) (f, None); Ev (Flock (Fd f) LOCK_EX) None;
           Ev (CommandRun "Formatting file" cmd) (Some e);
           Ev (Close f) c]) \/
  (exists f fmt dev x mnt m rm c,
     formatted fmt /\
     r = (match rm with
          | Some e => Some (mnt +:+ " mount failed: " +:+ e)
          | None => None
          end, set_ImageMntDir context mnt) /\
     tr = Run_prologue i context ++
          [Ev (Open img) (f, None); Ev (Flock (Fd f) LOCK_EX) None] ++ fmt ++
          [Ev (EvalSymlinks img) (dev, x);
           Ev (PathJoin [Scratchdir context; "mnt"]) mnt;
           Ev (MkdirAll mnt perm_0755) m;
           Ev (Mount dev mnt (FS i) 0 "") rm;
           Ev (Close f) c]).
Proof.
  unfold Run, Run_prologue.
  remember (formatFile i context) as fmt eqn:Hfmt.
  prog. do 3 answer.
  repeat match goal with u : unit |- _ => destruct u end.
  destruct r1 as [f [e |]]; simpl.
  { left. exists f, e. split; reflexivity. }
  right. answer. destruct r as [e |]; simpl.
  { left. answer. exists f, e, r. split; reflexivity. }
  right. rewrite !exec_bind. subst fmt.
  destruct (formatFile_exec os w3 i context) as [[_ ->] | [cmd ->]].
  - right. simpl. answer. destruct r as [dev x]; simpl. do 3 answer.
    destruct r1 as [e |]; simpl; answer;
      [exists f, [], dev, x, r, r0, (Some e), r1
      | exists f, [], dev, x, r, r0, None, r1];
      (split; [left; reflexivity | split; reflexivity]).
  - answer. destruct r as [e |]; simpl.
    + left. answer. exists f, cmd, e, r. split; reflexivity.
    + right. answer. destruct r as [dev x]; simpl. do 3 answer.
      destruct r1 as [e |]; simpl; answer;
        [exists f, [Ev (CommandRun "Formatting file" cmd) None],
           dev, x, r, r0, (Some e), r1
        | exists f, [Ev (CommandRun "Formatting file" cmd) None],
            dev, x, r, r0, None, r1];
        (split; [right; exists cmd; reflexivity | split; reflexivity]).
Qed.

(** *** The preparation phases, path by path *)

Lemma PreNoMachine_paths (os : OS) (w : World os) (i : ImageFileAction)
    (context : DebosContext) :
  let tr := trace os (PreNoMachine i context) w in
  let r := result os (PreNoMachine i context) w in
  (exists sz e,
     r = (Some ("Failed to parse image size: " +:+ ImageSize i), i, context) /\
     tr = [Ev (FromHumanSize (ImageSize i)) (sz, Some e)]) \/
  (exists sz img e,
     r = (Some ("Couldn't open image file: " +:+ e), set_size i sz, context) /\
     tr = [Ev (FromHumanSize (ImageSize i)) (sz, None);
           Ev (Printf "PreNoMachine: %s, size: %d"
                 [ArgS (ImageName i); ArgD sz]) tt;
           Ev (OpenFile (ImageName i) (Z.lor O_WRONLY O_CREATE) perm_0666)
              (img, Some e)]) \/
  (exists sz img e,
     r = (Some ("Couldn't resize image file: " +:+ e), set_size i sz, context) /\
     tr = [Ev (FromHumanSize (ImageSize i)) (sz, None);
           Ev (Printf "PreNoMachine: %s, size: %d"
                 [ArgS (ImageName i); ArgD sz]) tt;
           Ev (OpenFile (ImageName i) (Z.lor O_WRONLY O_CREATE) perm_0666)
              (img, None);
           Ev (Truncate img sz) (Some e)]) \/
  (exists sz img c dev e,
     r = (Some "Failed to setup loop device - need sudo?",
          set_loopDev (set_size i sz) dev, context) /\
     tr = allocated i sz img c ++
          [Ev (Attach (ImageName i) 0 false) (dev, Some e)]) \/
  (exists sz img c dev p,
     r = (None, set_usingLoop (set_loopDev (set_size i sz) dev) true,
          set_Image context p) /\
     tr = allocated i sz img c ++
          [Ev (Attach (ImageName i) 0 false) (dev, None);
           Ev (Path dev) p]).
Proof.
  unfold PreNoMachine, allocated. prog.
  answer. destruct r as [sz [e |]]; simpl.
  { left. exists sz, e. split; reflexivity. }
  right. do 2 answer. destruct r as []. destruct r0 as [img [e |]]; simpl.
  { left. exists sz, img, e. split; reflexivity. }
  right. answer. destruct r as [e |]; simpl.
  { left. exists sz, img, e. split; reflexivity. }
  right. do 2 answer. destruct r0 as [dev [e |]]; simpl.
  { left. exists sz, img, r, dev, e. split; reflexivity. }
  right. answer. exists sz, img, r, dev, r0. split; reflexivity.
Qed.

Lemma PreMachine_paths (os : OS) (w : World os) (i : ImageFileAction)
    (context : DebosContext) (args : list string) :
  let tr := trace os (PreMachine i context args) w in
  let r := result os (PreMachine i context args) w in
  (exists sz e,
     r = (Some ("Failed to parse image size: " +:+ ImageSize i), context, args) /\
     tr = [Ev (FromHumanSize (ImageSize i)) (sz, Some e)]) \/
  (exists sz image e,
     r = (Some e, context, args) /\
     tr = [Ev (FromHumanSize (ImageSize i)) (sz, None);
           Ev (Printf "context.Rootdir: %s" [ArgS (Rootdir context)]) tt;
           Ev (Printf "PreMachine: %s, size: %d" [ArgS (ImageName i); ArgD sz]) tt;
           Ev (CreateImage (ImageName i) sz) (image, Some e)]) \/
  (exists sz image,
     r = (None, set_Image context image, args ++ ["--internal-image"; image]) /\
     tr = [Ev (FromHumanSize (ImageSize i)) (sz, None);
           Ev (Printf "context.Rootdir: %s" [ArgS (Rootdir context)]) tt;
           Ev (Printf "PreMachine: %s, size: %d" [ArgS (ImageName i); ArgD sz]) tt;
           Ev (CreateImage (ImageName i) sz) (image, None)]).
Proof.
  unfold PreMachine. prog.
  answer. destruct r as [sz [e |]]; simpl.
  { left. exists sz, e. split; reflexivity. }
  right. do 3 answer. destruct r as []. destruct r0 as [].
  destruct r1 as [image [e |]]; simpl.
  { left. exists sz, image, e. split; reflexivity. }
  right. exists sz, image. split; reflexivity.
Qed.

(** The phase wrappers add no request. *)
Lemma do_PreMachine_exec (os : OS) (w : World os) (s : Pipeline) :
  trace os (do_PreMachine s) w
    = trace os (PreMachine (held s) (shared s) (machine_args s)) w /\
  result os (do_PreMachine s) w
    = let r := result os (PreMachine (held s) (shared s) (machine_args s)) w in
      (r.1.1, {| held := held s; shared := r.1.2; machine_args := r.2 |}).
Proof.
  unfold do_PreMachine, trace, result, mbind, Prog_bind.
  rewrite exec_bind.
  destruct (exec os (PreMachine (held s) (shared s) (machine_args s)) w)
    as [[[[err c] a] w1] tr].
  simpl. rewrite app_nil_r. split; reflexivity.
Qed.

(** An action that does not own a loop device is never asked to release
    one. *)
Lemma Cleanup_not_owned (os : OS) (w : World os) (i : ImageFileAction)
    (context : DebosContext) :
  usingLoop i = false ->
  count is_Detach (trace os (Cleanup i context) w) = O /\
  count is_Remove (trace os (Cleanup i context) w) = O.
Proof.
  intros Hu.
  destruct (Cleanup_paths os w i context)
    as [(e & _ & ->) | [(_ & _ & ->) | [(Hu' & _) | (Hu' & _)]]];
    try congruence; split; reflexivity.
Qed.

(** *** The allocation *)

Lemma PreNoMachine_allocate (os : OS) (w : World os) (i : ImageFileAction)
    (context : DebosContext) :
  exec os (PreNoMachine i context) w
    = exec os (PreNoMachine_via_allocate i context) w.
Proof.
  unfold PreNoMachine, PreNoMachine_via_allocate, allocate. prog.
  answer. destruct r as [sz [e |]]; simpl; [reflexivity |].
  do 2 answer. destruct r0 as [img [e |]]; simpl; [reflexivity |].
  answer. destruct r0 as [e |]; simpl; [reflexivity |].
  do 2 answer. destruct r1 as [dev [e |]]; simpl; [reflexivity |].
  answer. reflexivity.
Qed.

Lemma sized_contents (st : Posix.Store) (name : string) (sz : Z) :
  Posix.contents (sized st name sz) name
    = resize (Z.to_nat sz) Byte.x00 (Posix.contents st name).
Proof.
  unfold Posix.contents at 1, sized. cbn [Posix.files].
  rewrite lookup_insert_eq. reflexivity.
Qed.

Lemma sized_idemp (st : Posix.Store) (name : string) (sz : Z) :
  sized (sized st name sz) name sz = sized st name sz.
Proof.
  unfold sized at 1. rewrite sized_contents, resize_idemp.
  unfold sized. cbn [Posix.files Posix.open_files].
  rewrite insert_insert_eq. reflexivity.
Qed.


(** The whole direct preparation on the host: with a size that parses to a
    value that is not negative and a name that is not a directory, it
    succeeds and leaves the store with the file sized. *)
Lemma PreNoMachine_on_host (parse : string -> Z * option error)
    (st : Posix.Store) (i : ImageFileAction) (context : DebosContext)
    (sz : Z) :
  parse (ImageSize i) = (sz, None) -> 0 <= sz ->
  Posix.files st !! ImageName i <> Some Posix.Directory ->
  (result (host parse) (PreNoMachine i context) st).1.1 = None /\
  final (host parse) (PreNoMachine i context) st = sized st (ImageName i) sz.
Proof.
  intros Hparse Hsz Hdir.
  set (fd := fresh (dom (Posix.open_files st))).
  assert (Hfd : Posix.open_files st !! fd = None).
  { apply not_elem_of_dom. apply is_fresh. }
  assert (Hlt : (sz <? 0) = false) by (apply Z.ltb_ge; exact Hsz).
  unfold PreNoMachine, sized, Posix.contents. prog. rewrite Hparse. simpl.
  unfold Posix.open. fold fd.
  destruct (Posix.files st !! ImageName i) as [[data |] |] eqn:Hname;
    [| congruence |];
    cbn [Posix.has_flag O_WRONLY O_CREATE O_TRUNC Z.lor Z.land Z.eqb negb
         Pos.lor Pos.land Pos.Nsucc_double Pos.Ndouble];
    simpl; unfold Posix.ftruncate; cbn [Posix.open_files Posix.files];
    rewrite lookup_insert_eq, Hlt.
  - rewrite Hname. simpl. unfold Posix.close. cbn [Posix.open_files Posix.files].
    rewrite lookup_insert_eq, delete_insert_id by exact Hfd.
    split; reflexivity.
  - rewrite lookup_insert_eq. simpl. unfold Posix.close.
    cbn [Posix.open_files Posix.files].
    rewrite lookup_insert_eq, delete_insert_id by exact Hfd.
    rewrite insert_insert_eq. split; reflexivity.
Qed.

(** ** The formatting command (formatFile) *)

Lemma formatFile_runs (os : OS) (w : World os) (i : ImageFileAction)
    (context : DebosContext) (cmd : list string) (j : ImageFileAction) :
  formatFile_switch i = (cmd, j) -> cmd <> [] ->
  runs_command os w i context cmd.
Proof.
  intros Hsw Hne. unfold runs_command, formatFile. rewrite Hsw.
  destruct cmd as [| c0 cmd]; [congruence |].
  prog. answer. destruct r; reflexivity.
Qed.

(** C5: the formatting step runs exactly the command of the dispatch table,
    with the image path as last argument: the five named types get their own
    tool and flags with the configured label, "none" makes no request at
    all and succeeds, and every other type gets mkfs.<type> -L <label>. *)
Theorem formatFile_dispatch (os : OS) (w : World os) (i : ImageFileAction)
    (context : DebosContext) :
  (FS i = "vfat" ->
     runs_command os w i context ["mkfs.vfat"; "-F32"; "-n"; FSName i]) /\
  (FS i = "btrfs" ->
     runs_command os w i context ["mkfs.btrfs"; "-L"; FSName i; "-f"]) /\
  (FS i = "hfs" ->
     runs_command os w i context ["mkfs.hfs"; "-h"; "-v"; FSName i]) /\
  (FS i = "hfsplus" ->
     runs_command os w i context ["mkfs.hfsplus"; "-v"; FSName i]) /\
  (FS i = "hfsx" ->
     runs_command os w i context ["mkfs.hfsplus"; "-s"; "-v"; FSName i]) /\
  (FS i = "none" ->
     trace os (formatFile i context) w = [] /\
     result os (formatFile i context) w = None) /\
  (FS i <> "vfat" -> FS i <> "btrfs" -> FS i <> "hfs" ->
   FS i <> "hfsplus" -> FS i <> "hfsx" -> FS i <> "none" ->
     runs_command os w i context ["mkfs." +:+ FS i; "-L"; FSName i]).
Proof.
  repeat apply conj.
  1-5: intros E; eapply formatFile_runs;
       [unfold formatFile_switch; rewrite E; reflexivity | discriminate].
  - intros E; unfold trace, result, formatFile, formatFile_switch;
      rewrite E; split; reflexivity.
  - intros N1 N2 N3 N4 N5 N6.
    eapply formatFile_runs; [| discriminate].
    unfold formatFile_switch.
    repeat match goal with
           | H : FS i <> ?s |- _ =>
               apply String.eqb_neq in H; rewrite H; clear H
           end.
    reflexivity.
Qed.

(** The generic case at a concrete recipe: ext4 with label debian. *)
Lemma formatFile_dispatch_witness :
  runs_command (Sim.os Sim.fine) O debian_ext4
    (set_Image scratch "/dev/loop0") ["mkfs.ext4"; "-L"; "debian"].
Proof.
  apply (formatFile_dispatch (Sim.os Sim.fine) O debian_ext4
           (set_Image scratch "/dev/loop0"));
    simpl; discriminate.
Defined.

(** ** The removal loop of Cleanup *)

(** C3: in every cleanup whose detach succeeded, whatever the removal
    attempts answer: between 1 and 60 removals are attempted; what follows
    the detach is a run of failed rounds (attempt, log line, sleep of one
    second) ended by the first successful attempt, after which nothing more
    is requested, or, when there was none, by the warning that carries the
    last error; the cleanup returns no error exactly when an attempt
    succeeded, and an error exactly when 60 attempts failed.  The removal
    part is reached: every cleanup attempts the unmount, and a cleanup of an
    owned device whose unmount succeeded requests the detach. *)
Theorem Cleanup_bounded_retry (os : OS) (w : World os) (i : ImageFileAction)
    (context : DebosContext) :
  let tr := trace os (Cleanup i context) w in
  let r := result os (Cleanup i context) w in
  count is_Unmount tr = 1%nat /\
  (usingLoop i = true -> count (ok is_Unmount) tr = 1%nat ->
     count is_Detach tr = 1%nat) /\
  (count (ok is_Detach) tr = 1%nat ->
     (1 <= count is_Remove tr <= 60)%nat /\
     (exists errs : list error,
        after is_Detach tr
          = failed_rounds (loopDev i) errs ++ removal_end (loopDev i) r) /\
     (r = None <-> count (ok is_Remove) tr = 1%nat) /\
     (r <> None <-> count (ko is_Remove) tr = 60%nat)).
Proof.
  cbv zeta.
  destruct (Cleanup_paths os w i context)
    as [(e & Hr & Ht) | [(Hu & Hr & Ht) | [(Hu & e & Hr & Ht) |
        (Hu & w1 & Hr & Ht)]]];
    rewrite Ht, ?Hr; clear Ht.
  - simpl. split_and!; [reflexivity | intros _ H; discriminate H
                       | intros H; discriminate H].
  - simpl. split_and!; [reflexivity | intros H; congruence
                       | intros H; discriminate H].
  - simpl. split_and!; [reflexivity | reflexivity | intros H; discriminate H].
  - change ([Ev (Unmount (ImageMntDir context) 0) None;
             Ev (Detach (loopDev i)) None] ++
            trace os (Cleanup_loop (loopDev i) 60 None) w1 ++
            remove_warning (result os (Cleanup_loop (loopDev i) 60 None) w1))
      with (Ev (Unmount (ImageMntDir context) 0) None ::
            Ev (Detach (loopDev i)) None ::
            (trace os (Cleanup_loop (loopDev i) 60 None) w1 ++
             remove_warning (result os (Cleanup_loop (loopDev i) 60 None) w1))).
    destruct (Cleanup_loop_shape os (loopDev i) 60 w1 None)
      as [errs [(Hl & -> & ->) | (Hl & -> & ->)]];
      destruct (count_failed_rounds (loopDev i) errs)
        as (C1 & C2 & C3 & _ & C5 & C6).
    + simpl. rewrite !count_app, C1, C2, C3, C5, C6. simpl.
      split_and!; [reflexivity | reflexivity |]. intros _.
      split_and!; [lia | lia | | split; reflexivity | split; [congruence | lia]].
      exists errs. rewrite app_nil_r. reflexivity.
    + destruct errs as [| x errs]; [discriminate Hl |].
      destruct (last_error_Some errs x) as [e' He'].
      change (last_error None (x :: errs)) with (last_error (Some x) errs).
      rewrite He'.
      cbn [count after is_Unmount is_Detach is_Remove ok ko succeeded failed
           answer_error andb negb Nat.add].
      rewrite !count_app, C1, C2, C3, C5, C6, Hl. simpl.
      split_and!; [reflexivity | reflexivity |]. intros _.
      split_and!; [lia | lia | | split; discriminate
                  | split; [reflexivity | discriminate]].
      exists (x :: errs). reflexivity.
Qed.

(** A loop device that is never removed: 60 attempts, then the error. *)
Lemma Cleanup_bounded_retry_witness :
  count (ok is_Detach)
    (trace (Sim.os stuck_removal) (Cleanup owned mounted) O) = 1%nat /\
  count (ko is_Remove)
    (trace (Sim.os stuck_removal) (Cleanup owned mounted) O) = 60%nat /\
  result (Sim.os stuck_removal) (Cleanup owned mounted) O <> None.
Proof.
  destruct (Cleanup_bounded_retry (Sim.os stuck_removal) O owned mounted)
    as (_ & _ & H).
  destruct (H eq_refl) as (_ & _ & _ & Hko).
  assert (Hc : count (ko is_Remove)
                 (trace (Sim.os stuck_removal) (Cleanup owned mounted) O)
               = 60%nat) by (vm_compute; reflexivity).
  split_and!; [reflexivity | exact Hc | apply Hko; exact Hc].
Defined.

(** Two removals fail and the third succeeds: three attempts, two sleeps,
    no error. *)
Lemma Cleanup_loop_third_attempt :
  exec (Sim.os slow_removal) (Cleanup_loop (mkDevice 0) 60 None) O =
    (None, 3%nat,
     failed_rounds (mkDevice 0)
       ["device or resource busy"; "device or resource busy"]
     ++ [Ev (Remove (mkDevice 0)) None]).
Proof. vm_compute. reflexivity. Qed.

(** Every removal fails: Cleanup makes 60 attempts, sleeps 60 times and
    returns the error of the last one. *)
Lemma Cleanup_stuck_removal :
  let out := exec (Sim.os stuck_removal) (Cleanup owned mounted) O in
  out.1.1 = Some "device or resource busy" /\
  out.1.2 = 60%nat /\
  count is_Remove out.2 = 60%nat /\
  count is_Sleep out.2 = 60%nat.
Proof. vm_compute. split_and!; reflexivity. Qed.

(** ** What Cleanup attempts *)

(** C2, as worded, fails: the action owns its loop device and the unmount is
    refused; Cleanup returns the unmount error at once and never asks for
    the detach. *)
Lemma Cleanup_failed_unmount_skips_release :
  ~ released_iff_owned owned (trace (Sim.os busy) (Cleanup owned mounted) O).
Proof.
  unfold released_iff_owned. intros [_ [_ H]].
  specialize (H eq_refl). vm_compute in H. discriminate H.
Qed.

(** C2, amended: every Cleanup attempts the unmount exactly once; the
    release is attempted at most once, and is attempted (the detach is
    requested) exactly when the action owns the loop device and the unmount
    succeeded; removals, between 1 and 60 of them, are attempted exactly
    when that detach succeeded. *)
Theorem Cleanup_attempts (os : OS) (w : World os) (i : ImageFileAction)
    (context : DebosContext) :
  let tr := trace os (Cleanup i context) w in
  count is_Unmount tr = 1%nat /\
  (count is_Detach tr <= 1)%nat /\
  (count is_Detach tr = 1%nat <->
     usingLoop i = true /\ count (ok is_Unmount) tr = 1%nat) /\
  (count is_Remove tr <= 60)%nat /\
  ((1 <= count is_Remove tr)%nat <-> count (ok is_Detach) tr = 1%nat).
Proof.
  cbv zeta.
  destruct (Cleanup_paths os w i context)
    as [(e & _ & Ht) | [(Hu & _ & Ht) | [(Hu & e & _ & Ht) | (Hu & w1 & _ & Ht)]]];
    rewrite Ht; clear Ht.
  - simpl. split_and!; try lia; intuition (try discriminate; lia).
  - simpl. rewrite Hu. split_and!; try lia; intuition (try discriminate; lia).
  - simpl. rewrite Hu. split_and!; try lia; intuition (try discriminate; lia).
  - destruct (Cleanup_loop_counts os w1 (loopDev i)) as (Hr & Hd & Hm & Hd' & Hm').
    assert (Hw : forall p, (forall f v, p (Ev (Printf f v) tt) = false) ->
                 count p (remove_warning
                            (result os (Cleanup i context) w)) = O).
    { intros p Hp. destruct (result os (Cleanup i context) w); simpl;
        [rewrite Hp |]; reflexivity. }
    rewrite !count_app, !Hw by reflexivity.
    rewrite Hd, Hm, Hd', Hm'. simpl. rewrite Hu.
    split_and!; try lia; intuition (try discriminate; lia).
Qed.

(** ** The file-system type handed to mount *)

(** Whatever the environment answers, a mount requested by [Run] carries the
    type the action was configured with: the method reads its own receiver,
    which [formatFile] cannot change. *)
Lemma Run_mount_fstype (os : OS) (w : World os) (i : ImageFileAction)
    (context : DebosContext) :
  mount_fstypes (trace os (Run i context) w) = [] \/
  mount_fstypes (trace os (Run i context) w) = [FS i].
Proof.
  destruct (Run_paths os w i context)
    as [(f & e & _ & ->) | [(f & e & c & _ & ->) |
        [(f & cmd & e & c & _ & ->) |
         (f & fmt & dev & x & mnt & m & rm & c & Hfmt & _ & ->)]]];
    try (left; reflexivity).
  right. destruct Hfmt as [-> | [cmd ->]]; reflexivity.
Qed.

(** C1 (the code departs from the claim): an action configured with the
    type hfsx, every request succeeding.  [formatFile] runs mkfs.hfsplus -s
    and sets the type to hfsplus in its own copy of the action; [Run] then
    mounts with the type of its receiver, which is still hfsx, and the
    action held by the caller is still hfsx after the run. *)
Theorem Run_hfsx_mounts_hfsx :
  FS (formatFile_switch mac_hfsx).2 = "hfsplus" /\
  trace (Sim.os Sim.fine) (Run mac_hfsx prepared) O =
    Run_prologue mac_hfsx prepared ++
    [Ev (Open "/dev/loop0") (4%nat, None);
     Ev (Flock 4 LOCK_EX) None;
     Ev (CommandRun "Formatting file"
           ["mkfs.hfsplus"; "-s"; "-v"; "mac"; "/dev/loop0"]) None;
     Ev (EvalSymlinks "/dev/loop0") ("/dev/loop0", None);
     Ev (PathJoin ["/scratch"; "mnt"]) "/scratch/mnt";
     Ev (MkdirAll "/scratch/mnt" perm_0755) None;
     Ev (Mount "/dev/loop0" "/scratch/mnt" "hfsx" 0 "") None;
     Ev (Close 4%nat) None] /\
  FS (held (result (Sim.os Sim.fine)
              (do_Run {| held := mac_hfsx; shared := prepared;
                         machine_args := [] |}) O).2) = "hfsx".
Proof. split_and!; reflexivity. Qed.

(** ** The lock around format and mount *)

(** C4: the only path a run opens is the image of the context.  In every
    run that opened it, the run makes exactly one lock request, the
    exclusive lock on the opened descriptor, and never another (so it never
    unlocks); that lock is held before any formatting command and before the
    mount; no descriptor is closed before the mount has answered, whatever
    it answers, and the close of the locked descriptor is the very next
    request after it; the run closes the descriptor exactly once, as its
    last request, on every path.  A run that could not open the device
    requests no lock, no formatting, no mount and no close. *)
Theorem Run_lock_scope (os : OS) (w : World os) (i : ImageFileAction)
    (context : DebosContext) :
  let tr := trace os (Run i context) w in
  opened_paths tr = [Image context] /\
  (forall f : File, opened tr = Some f ->
     flock_requests tr = [(Fd f, LOCK_EX)] /\
     (existsb is_CommandRun tr = true ->
        existsb (locks f) (before is_CommandRun tr) = true) /\
     (existsb is_Mount tr = true ->
        existsb (locks f) (before is_Mount tr) = true /\
        existsb is_Close (before is_Mount tr) = false /\
        map (closes f) (after is_Mount tr) = [true]) /\
     closes f <$> last tr = Some true /\
     count is_Close tr = 1%nat) /\
  (opened tr = None ->
     flock_requests tr = [] /\
     existsb is_Flock tr = false /\ existsb is_CommandRun tr = false /\
     existsb is_Mount tr = false /\ count is_Close tr = O).
Proof.
  cbv zeta.
  assert (Hfd : forall f, (Fd f =? Fd f) = true) by (intros; apply Z.eqb_refl).
  destruct (Run_paths os w i context)
    as [(f & e & _ & ->) | [(f & e & c & _ & ->) |
        [(f & cmd & e & c & _ & ->) |
         (f & fmt & dev & x & mnt & m & rm & c & Hfmt & _ & ->)]]].
  - split_and!; [reflexivity | intros g Hg; discriminate Hg |].
    intros _. split_and!; reflexivity.
  - split_and!; [reflexivity | | intros Hn; discriminate Hn].
    intros g Hg. injection Hg as <-. simpl. rewrite Nat.eqb_refl.
    split_and!; try reflexivity; intros H; discriminate H.
  - split_and!; [reflexivity | | intros Hn; discriminate Hn].
    intros g Hg. injection Hg as <-. simpl. rewrite Nat.eqb_refl, Hfd.
    split_and!; try reflexivity; intros H; try discriminate H; reflexivity.
  - split_and!;
      [destruct Hfmt as [-> | [cmd ->]]; reflexivity | | intros Hn];
      [| destruct Hfmt as [-> | [cmd ->]]; discriminate Hn].
    intros g Hg.
    assert (g = f) as -> by (destruct Hfmt as [-> | [cmd ->]];
                             injection Hg as <-; reflexivity).
    clear Hg.
    destruct Hfmt as [-> | [cmd ->]]; simpl; rewrite Nat.eqb_refl, Hfd;
      split_and!; try reflexivity; intros H; try discriminate H;
      split_and!; reflexivity.
Qed.

(** A successful run on the scripted environment: the image device is the
    one path opened, descriptor 4 is locked once, before mkfs.ext4 and the
    mount, and closed last. *)
Lemma Run_lock_scope_witness :
  let tr := trace (Sim.os Sim.fine) (Run debian_ext4 prepared) O in
  opened_paths tr = ["/dev/loop0"] /\
  opened tr = Some 4%nat /\
  flock_requests tr = [(4, LOCK_EX)] /\
  existsb (locks 4%nat) (before is_CommandRun tr) = true /\
  existsb (locks 4%nat) (before is_Mount tr) = true /\
  existsb is_Close (before is_Mount tr) = false /\
  map (closes 4%nat) (after is_Mount tr) = [true] /\
  closes 4%nat <$> last tr = Some true.
Proof.
  cbv zeta.
  destruct (Run_lock_scope (Sim.os Sim.fine) O debian_ext4 prepared)
    as (Hp & H & _).
  destruct (H 4%nat eq_refl) as (Hf & Hc & Hm & Hl & _).
  destruct (Hm eq_refl) as (Hm1 & Hm2 & Hm3).
  split_and!; [exact Hp | reflexivity | exact Hf | exact (Hc eq_refl)
              | exact Hm1 | exact Hm2 | exact Hm3 | exact Hl].
Defined.

(** ** The mount directory *)

(** C9: when the creation of the mount directory fails, the run goes on:
    the next request is the mount, on the same directory, and the result of
    the run is decided by the answer of the mount alone (no error if the
    mount succeeded, the mount error otherwise).  The error of the creation
    appears nowhere in the result. *)
Theorem Run_discards_MkdirAll_error (os : OS) (w : World os)
    (i : ImageFileAction) (context : DebosContext) :
  existsb (ko is_MkdirAll) (trace os (Run i context) w) = true ->
  exists (dev mnt : string) (rm c : option error) (f : File),
    after is_MkdirAll (trace os (Run i context) w) =
      [Ev (Mount dev mnt (FS i) 0 "") rm; Ev (Close f) c] /\
    (result os (Run i context) w).1 =
      match rm with
      | Some e => Some (mnt +:+ " mount failed: " +:+ e)
      | None => None
      end.
Proof.
  destruct (Run_paths os w i context)
    as [(f & e & _ & ->) | [(f & e & c & _ & ->) |
        [(f & cmd & e & c & _ & ->) |
         (f & fmt & dev & x & mnt & m & rm & c & Hfmt & -> & ->)]]];
    try (intros H; discriminate H).
  intros _. exists dev, mnt, rm, c, f.
  destruct Hfmt as [-> | [cmd ->]]; split; reflexivity.
Qed.

(** The mount directory cannot be created and the mount fails: the run
    reports the mount error. *)
Lemma Run_discards_MkdirAll_error_witness :
  existsb (ko is_MkdirAll)
    (trace (Sim.os no_mount_dir) (Run debian_ext4 prepared) O) = true /\
  exists (dev mnt : string) (rm c : option error) (f : File),
    after is_MkdirAll (trace (Sim.os no_mount_dir) (Run debian_ext4 prepared) O) =
      [Ev (Mount dev mnt (FS debian_ext4) 0 "") rm; Ev (Close f) c] /\
    (result (Sim.os no_mount_dir) (Run debian_ext4 prepared) O).1 =
      match rm with
      | Some e => Some (mnt +:+ " mount failed: " +:+ e)
      | None => None
      end.
Proof.
  split; [reflexivity |].
  apply (Run_discards_MkdirAll_error (Sim.os no_mount_dir) O debian_ext4 prepared).
  reflexivity.
Defined.

(** ** The direct preparation: a failed loop attach *)

(** C10: when the loop attach fails, whatever error it answered, the
    returned error is the fixed text about the loop device, the shared
    context is the one passed in (its image field included), and the
    ownership flag of the action is what it was. *)
Theorem PreNoMachine_attach_failure (os : OS) (w : World os)
    (i : ImageFileAction) (context : DebosContext) :
  existsb (ko is_Attach) (trace os (PreNoMachine i context) w) = true ->
  (result os (PreNoMachine i context) w).1.1
    = Some "Failed to setup loop device - need sudo?" /\
  (result os (PreNoMachine i context) w).2 = context /\
  usingLoop (result os (PreNoMachine i context) w).1.2 = usingLoop i.
Proof.
  destruct (PreNoMachine_paths os w i context)
    as [(sz & e & -> & ->) | [(sz & img & e & -> & ->) |
        [(sz & img & e & -> & ->) | [(sz & img & c & dev & e & -> & ->) |
         (sz & img & c & dev & p & -> & ->)]]]];
    intros H; try discriminate H.
  split_and!; reflexivity.
Qed.

(** The attach is refused for lack of privilege: the text of the refusal is
    not in the returned error. *)
Lemma PreNoMachine_attach_failure_witness :
  existsb (ko is_Attach)
    (trace (Sim.os no_loop) (PreNoMachine debian_ext4 scratch) O) = true /\
  (result (Sim.os no_loop) (PreNoMachine debian_ext4 scratch) O).1.1
    = Some "Failed to setup loop device - need sudo?" /\
  (result (Sim.os no_loop) (PreNoMachine debian_ext4 scratch) O).2 = scratch /\
  usingLoop (result (Sim.os no_loop) (PreNoMachine debian_ext4 scratch) O).1.2
    = usingLoop debian_ext4.
Proof.
  split; [reflexivity |].
  apply (PreNoMachine_attach_failure (Sim.os no_loop) O debian_ext4 scratch).
  reflexivity.
Defined.

(** ** The parsed size *)

(** The direct preparation keeps the parsed size: it asks for the size once
    and, on success, the action it leaves holds the answer. *)
Lemma PreNoMachine_keeps_size (os : OS) (w : World os) (s : Pipeline) :
  (result os (do_PreNoMachine s) w).1 = None ->
  count is_FromHumanSize (trace os (do_PreNoMachine s) w) = 1%nat /\
  exists e, head (trace os (do_PreNoMachine s) w)
            = Some (Ev (FromHumanSize (ImageSize (held s)))
                       (size (held (result os (do_PreNoMachine s) w).2), e)).
Proof.
  unfold do_PreNoMachine, trace, result, mbind, Prog_bind.
  rewrite exec_bind.
  pose proof (PreNoMachine_paths os w (held s) (shared s)) as H.
  unfold trace, result in H.
  destruct (exec os (PreNoMachine (held s) (shared s)) w)
    as [[[[err i'] c'] w1] tr].
  simpl in *. rewrite app_nil_r.
  destruct H as [(sz & e & Hr & ->) | [(sz & img & e & Hr & ->) |
        [(sz & img & e & Hr & ->) | [(sz & img & c & dev & e & Hr & ->) |
         (sz & img & c & dev & p & Hr & ->)]]]];
    injection Hr as -> -> ->; intros H; try discriminate H.
  split; [reflexivity |]. exists None. reflexivity.
Qed.

(** The later phases have value receivers: they leave the held action, and
    with it the size, as it is. *)
Lemma later_phases_keep_action (os : OS) (w : World os) (s : Pipeline) :
  held (result os (do_Run s) w).2 = held s /\
  held (result os (do_Cleanup s) w).2 = held s.
Proof.
  unfold do_Run, do_Cleanup, result, mbind, Prog_bind.
  rewrite !exec_bind.
  destruct (exec os (Run (held s) (shared s)) w) as [[[err c] w1] tr].
  destruct (exec os (Cleanup (held s) (shared s)) w) as [[err' w1'] tr'].
  split; reflexivity.
Qed.

(** C6 (the code departs from the claim on the delegated path): the ext4
    recipe of size 1GB, every request succeeding.  The delegated preparation
    parses the size, passes 1000000000 to the image creation and succeeds,
    but the action held by the caller still has size 0: the assignment was
    made to the method's copy.  The direct preparation on the same input
    leaves 1000000000 in the action. *)
Theorem PreMachine_drops_size :
  let out := exec (Sim.os Sim.fine) (do_PreMachine fresh_pipeline) O in
  out.1.1.1 = None /\
  last out.2 = Some (Ev (CreateImage "debian.img" 1000000000)
                        ("/dev/disk/by-id/virtio-fakedisk-0", None)) /\
  size (held out.1.1.2) = 0 /\
  size (held (result (Sim.os Sim.fine) (do_PreNoMachine fresh_pipeline) O).2)
    = 1000000000.
Proof. cbv zeta. split_and!; reflexivity. Qed.

(** ** The delegated preparation *)

(** C8: when the delegated preparation succeeds, its last request is the
    image creation, answered with a device path and no error; that path is
    the image field of the shared context afterwards, the argument list has
    gained the two arguments --internal-image and the path, at its end, and
    the held action is untouched.  If the action did not own a loop device
    before, it does not own one now, and no Cleanup on it, in any
    environment, requests a detach or a removal. *)
Theorem PreMachine_records_device (os : OS) (w : World os) (s : Pipeline) :
  (result os (do_PreMachine s) w).1 = None ->
  exists (image : string) (sz : Z),
    last (trace os (do_PreMachine s) w)
      = Some (Ev (CreateImage (ImageName (held s)) sz) (image, None)) /\
    Image (shared (result os (do_PreMachine s) w).2) = image /\
    machine_args (result os (do_PreMachine s) w).2
      = machine_args s ++ ["--internal-image"; image] /\
    held (result os (do_PreMachine s) w).2 = held s /\
    (usingLoop (held s) = false ->
     usingLoop (held (result os (do_PreMachine s) w).2) = false /\
     forall (os' : OS) (w' : World os'),
       let s' := (result os (do_PreMachine s) w).2 in
       count is_Detach (trace os' (Cleanup (held s') (shared s')) w') = O /\
       count is_Remove (trace os' (Cleanup (held s') (shared s')) w') = O).
Proof.
  destruct (do_PreMachine_exec os w s) as [-> ->].
  destruct (PreMachine_paths os w (held s) (shared s) (machine_args s))
    as [(sz & e & -> & ->) | [(sz & image & e & -> & ->) |
        (sz & image & -> & ->)]];
    simpl; intros H; try discriminate H.
  exists image, sz. split_and!; try reflexivity.
  intros Hu. split; [exact Hu |].
  intros os' w'. apply Cleanup_not_owned. exact Hu.
Qed.

(** The ext4 recipe on the delegated path: the device path answered by the
    machine ends up in the context and in the arguments. *)
Lemma PreMachine_records_device_witness :
  (result (Sim.os Sim.fine) (do_PreMachine fresh_pipeline) O).1 = None /\
  exists (image : string) (sz : Z),
    last (trace (Sim.os Sim.fine) (do_PreMachine fresh_pipeline) O)
      = Some (Ev (CreateImage "debian.img" sz) (image, None)) /\
    Image (shared (result (Sim.os Sim.fine) (do_PreMachine fresh_pipeline) O).2)
      = image /\
    machine_args (result (Sim.os Sim.fine) (do_PreMachine fresh_pipeline) O).2
      = ["debos"; "--internal-image"; image].
Proof.
  split; [reflexivity |].
  destruct (PreMachine_records_device (Sim.os Sim.fine) O fresh_pipeline eq_refl)
    as (image & sz & H1 & H2 & H3 & _).
  exists image, sz. split_and!; [exact H1 | exact H2 | exact H3].
Defined.

(** ** The allocation of the image file *)




(** * Further properties of the action *)

(** ** The direct preparation *)

(** X1: when the size does not parse, the direct preparation makes no
    further request (no file is created, nothing is attached); the error
    names the configured size text, not the parser's error, and the action
    and the context come back as they were. *)
Theorem PreNoMachine_parse_failure (os : OS) (w : World os)
    (i : ImageFileAction) (context : DebosContext) :
  existsb (ko is_FromHumanSize) (trace os (PreNoMachine i context) w) = true ->
  result os (PreNoMachine i context) w
    = (Some ("Failed to parse image size: " +:+ ImageSize i), i, context) /\
  length (trace os (PreNoMachine i context) w) = 1%nat.
Proof.
  destruct (PreNoMachine_paths os w i context)
    as [(sz & e & -> & ->) | [(sz & img & e & -> & ->) |
        [(sz & img & e & -> & ->) | [(sz & img & c & dev & e & -> & ->) |
         (sz & img & c & dev & p & -> & ->)]]]];
    intros H; try discriminate H.
  split; reflexivity.
Qed.

Lemma PreNoMachine_parse_failure_witness :
  result (Sim.os Sim.fine) (PreNoMachine bad_size scratch) O
    = (Some "Failed to parse image size: lots", bad_size, scratch) /\
  length (trace (Sim.os Sim.fine) (PreNoMachine bad_size scratch) O) = 1%nat.
Proof.
  apply (PreNoMachine_parse_failure (Sim.os Sim.fine) O bad_size scratch).
  reflexivity.
Defined.

(** X2: when the resize of the image file fails, the file that was opened
    is never closed and no loop device is requested; the error is the
    resize text followed by the system's error, the context is unchanged
    and the action still does not own a device it did not own before. *)
Theorem PreNoMachine_failed_truncate (os : OS) (w : World os)
    (i : ImageFileAction) (context : DebosContext) :
  existsb (ko is_Truncate) (trace os (PreNoMachine i context) w) = true ->
  count (ok is_OpenFile) (trace os (PreNoMachine i context) w) = 1%nat /\
  count is_Close (trace os (PreNoMachine i context) w) = O /\
  existsb is_Attach (trace os (PreNoMachine i context) w) = false /\
  (result os (PreNoMachine i context) w).2 = context /\
  usingLoop (result os (PreNoMachine i context) w).1.2 = usingLoop i /\
  exists e : error,
    ev_error <$> last (trace os (PreNoMachine i context) w) = Some (Some e) /\
    (result os (PreNoMachine i context) w).1.1
      = Some ("Couldn't resize image file: " +:+ e).
Proof.
  destruct (PreNoMachine_paths os w i context)
    as [(sz & e & -> & ->) | [(sz & img & e & -> & ->) |
        [(sz & img & e & -> & ->) | [(sz & img & c & dev & e & -> & ->) |
         (sz & img & c & dev & p & -> & ->)]]]];
    intros H; try discriminate H.
  split_and!; try reflexivity. exists e. split; reflexivity.
Qed.

Lemma PreNoMachine_failed_truncate_witness :
  count is_Close (trace (Sim.os disk_full) (PreNoMachine debian_ext4 scratch) O)
    = O /\
  (result (Sim.os disk_full) (PreNoMachine debian_ext4 scratch) O).1.1
    = Some "Couldn't resize image file: truncate debian.img: no space left on device".
Proof.
  destruct (PreNoMachine_failed_truncate (Sim.os disk_full) O debian_ext4
              scratch eq_refl) as (_ & Hc & _ & _ & _ & e & He & Hr).
  split; [exact Hc |].
  rewrite Hr. vm_compute in He. injection He as <-. reflexivity.
Defined.

(** X3: for an action that does not own a loop device yet, the direct
    preparation sets the ownership flag exactly when it succeeds, and on
    every failure it returns the context it was given. *)
Theorem PreNoMachine_owns_iff_success (os : OS) (w : World os)
    (i : ImageFileAction) (context : DebosContext) :
  usingLoop i = false ->
  (usingLoop (result os (PreNoMachine i context) w).1.2 = true
     <-> (result os (PreNoMachine i context) w).1.1 = None) /\
  ((result os (PreNoMachine i context) w).1.1 <> None ->
     (result os (PreNoMachine i context) w).2 = context).
Proof.
  intros Hu.
  destruct (PreNoMachine_paths os w i context)
    as [(sz & e & -> & _) | [(sz & img & e & -> & _) |
        [(sz & img & e & -> & _) | [(sz & img & c & dev & e & -> & _) |
         (sz & img & c & dev & p & -> & _)]]]];
    simpl; rewrite ?Hu; (split; [split; intros H; try discriminate H; try reflexivity |]);
    intros H; try reflexivity; contradiction H; reflexivity.
Qed.

Lemma PreNoMachine_owns_iff_success_witness :
  usingLoop (result (Sim.os Sim.fine) (PreNoMachine debian_ext4 scratch) O).1.2
    = true /\
  usingLoop (result (Sim.os no_loop) (PreNoMachine debian_ext4 scratch) O).1.2
    = false.
Proof.
  split.
  - apply (PreNoMachine_owns_iff_success (Sim.os Sim.fine) O debian_ext4
             scratch eq_refl). reflexivity.
  - reflexivity.
Defined.

(** X4: a successful direct preparation made exactly these requests, in
    this order: the size parse, a log line, the open of the image file for
    writing with creation (mode 0666), the truncate to the parsed size, the
    close, the attach of the image file at offset 0 read-write, and the
    path of the attached device.  The action then holds the parsed size and
    the attached device and owns it, and the image of the context is the
    path of that device; nothing else in either has changed. *)
Theorem PreNoMachine_success (os : OS) (w : World os)
    (i : ImageFileAction) (context : DebosContext) :
  (result os (PreNoMachine i context) w).1.1 = None ->
  let i' := (result os (PreNoMachine i context) w).1.2 in
  let context' := (result os (PreNoMachine i context) w).2 in
  (exists (img : File) (c : option error),
     trace os (PreNoMachine i context) w =
       allocated i (size i') img c ++
       [Ev (Attach (ImageName i) 0 false) (loopDev i', None);
        Ev (Path (loopDev i')) (Image context')]) /\
  i' = set_usingLoop (set_loopDev (set_size i (size i')) (loopDev i')) true /\
  context' = set_Image context (Image context').
Proof.
  destruct (PreNoMachine_paths os w i context)
    as [(sz & e & -> & ->) | [(sz & img & e & -> & ->) |
        [(sz & img & e & -> & ->) | [(sz & img & c & dev & e & -> & ->) |
         (sz & img & c & dev & p & -> & ->)]]]];
    intros H; try discriminate H.
  cbv zeta. simpl. split_and!; try reflexivity.
  exists img, c. reflexivity.
Qed.

Lemma PreNoMachine_success_witness :
  (result (Sim.os Sim.fine) (PreNoMachine debian_ext4 scratch) O).1.2
    = set_usingLoop (set_loopDev (set_size debian_ext4 1000000000)
                       (mkDevice 0)) true /\
  (result (Sim.os Sim.fine) (PreNoMachine debian_ext4 scratch) O).2
    = set_Image scratch "/dev/loop0".
Proof.
  destruct (PreNoMachine_success (Sim.os Sim.fine) O debian_ext4 scratch
              eq_refl) as (_ & Hi & Hc).
  split; [exact Hi | exact Hc].
Defined.

(** X5: the direct preparation asks for a loop device exactly when it has
    asked to close the image file, whatever the close answered: its error
    is ignored.  Whenever the attach is requested, what came before it is
    exactly the successful parse, the log line, the successful open, the
    successful truncate to the parsed size and that close. *)
Theorem PreNoMachine_attach_after_allocation (os : OS) (w : World os)
    (i : ImageFileAction) (context : DebosContext) :
  existsb is_Attach (trace os (PreNoMachine i context) w)
    = existsb is_Close (trace os (PreNoMachine i context) w) /\
  (existsb is_Attach (trace os (PreNoMachine i context) w) = true ->
   exists (sz : Z) (img : File) (c : option error),
     before is_Attach (trace os (PreNoMachine i context) w)
       = allocated i sz img c).
Proof.
  destruct (PreNoMachine_paths os w i context)
    as [(sz & e & _ & ->) | [(sz & img & e & _ & ->) |
        [(sz & img & e & _ & ->) | [(sz & img & c & dev & e & _ & ->) |
         (sz & img & c & dev & p & _ & ->)]]]];
    (split; [reflexivity |]);
    intros H; try discriminate H; exists sz, img, c; reflexivity.
Qed.

(** The close of the image file fails: the attach is requested all the
    same, and the preparation succeeds. *)
Lemma PreNoMachine_attach_after_allocation_witness :
  existsb (ko is_Close) (trace close_fails (PreNoMachine debian_ext4 scratch) O)
    = true /\
  (result close_fails (PreNoMachine debian_ext4 scratch) O).1.1 = None /\
  exists (sz : Z) (img : File) (c : option error),
    before is_Attach (trace close_fails (PreNoMachine debian_ext4 scratch) O)
      = allocated debian_ext4 sz img c.
Proof.
  split_and!; [reflexivity | reflexivity |].
  apply (PreNoMachine_attach_after_allocation close_fails O debian_ext4 scratch).
  reflexivity.
Defined.

(** ** The delegated preparation *)

(** X6: when the delegated preparation fails, the context and the argument
    list come back unchanged.  Either the size did not parse, and then the
    machine was never asked for an image and the error names the configured
    size text; or the machine refused the image, and the error is the
    machine's, unchanged. *)
Theorem PreMachine_failure (os : OS) (w : World os) (i : ImageFileAction)
    (context : DebosContext) (args : list string) :
  (result os (PreMachine i context args) w).1.1 <> None ->
  (result os (PreMachine i context args) w).1.2 = context /\
  (result os (PreMachine i context args) w).2 = args /\
  ((existsb is_CreateImage (trace os (PreMachine i context args) w) = false /\
    (result os (PreMachine i context args) w).1.1
      = Some ("Failed to parse image size: " +:+ ImageSize i)) \/
   (existsb is_CreateImage (trace os (PreMachine i context args) w) = true /\
    ev_error <$> last (trace os (PreMachine i context args) w)
      = Some ((result os (PreMachine i context args) w).1.1))).
Proof.
  destruct (PreMachine_paths os w i context args)
    as [(sz & e & -> & ->) | [(sz & image & e & -> & ->) |
        (sz & image & -> & ->)]];
    simpl; intros H.
  - split_and!; try reflexivity. left. split; reflexivity.
  - split_and!; try reflexivity. right. split; reflexivity.
  - contradiction H. reflexivity.
Qed.

Lemma PreMachine_failure_witness :
  (result (Sim.os no_machine_image)
     (PreMachine debian_ext4 scratch ["debos"]) O).1.1 <> None /\
  (result (Sim.os no_machine_image)
     (PreMachine debian_ext4 scratch ["debos"]) O).1.2 = scratch /\
  (result (Sim.os no_machine_image)
     (PreMachine debian_ext4 scratch ["debos"]) O).2 = ["debos"].
Proof.
  assert (H : (result (Sim.os no_machine_image)
                 (PreMachine debian_ext4 scratch ["debos"]) O).1.1 <> None)
    by (vm_compute; discriminate).
  destruct (PreMachine_failure (Sim.os no_machine_image) O debian_ext4 scratch
              ["debos"] H) as (Hc & Ha & _).
  split_and!; [exact H | exact Hc | exact Ha].
Defined.

(** ** The run *)

(** X7: a run returns no error exactly when it made a mount that succeeded;
    no run mounts twice.  A successful run has set the mount directory of
    the context to the target of its mount and has changed nothing else in
    the context. *)
Theorem Run_succeeds_iff_mounted (os : OS) (w : World os)
    (i : ImageFileAction) (context : DebosContext) :
  ((result os (Run i context) w).1 = None
     <-> count (ok is_Mount) (trace os (Run i context) w) = 1%nat) /\
  (count is_Mount (trace os (Run i context) w) <= 1)%nat /\
  ((result os (Run i context) w).1 = None ->
     mount_targets (trace os (Run i context) w)
       = [ImageMntDir (result os (Run i context) w).2] /\
     (result os (Run i context) w).2
       = set_ImageMntDir context (ImageMntDir (result os (Run i context) w).2)).
Proof.
  destruct (Run_paths os w i context)
    as [(f & e & -> & ->) | [(f & e & c & -> & ->) |
        [(f & cmd & e & c & -> & ->) |
         (f & fmt & dev & x & mnt & m & rm & c & Hfmt & -> & ->)]]];
    try (simpl; split_and!; [split; intros H; discriminate H | lia
                            | intros H; discriminate H]).
  destruct Hfmt as [-> | [cmd ->]]; destruct rm as [e |]; simpl;
    (split_and!; [split; intros H; try discriminate H; reflexivity | lia
                 | intros H; try discriminate H; split; reflexivity]).
Qed.

(** X8: a run that fails before it reaches the mount (the device cannot be
    opened or locked, or the formatting tool fails) returns the context it
    was given, and its error is, unchanged, the error one of its requests
    answered. *)
Theorem Run_early_failure (os : OS) (w : World os)
    (i : ImageFileAction) (context : DebosContext) :
  existsb is_Mount (trace os (Run i context) w) = false ->
  (result os (Run i context) w).2 = context /\
  exists e : error,
    (result os (Run i context) w).1 = Some e /\
    existsb (answers e) (trace os (Run i context) w) = true /\
    existsb is_MkdirAll (trace os (Run i context) w) = false.
Proof.
  destruct (Run_paths os w i context)
    as [(f & e & -> & ->) | [(f & e & c & -> & ->) |
        [(f & cmd & e & c & -> & ->) |
         (f & fmt & dev & x & mnt & m & rm & c & Hfmt & -> & ->)]]];
    intros H.
  1-3: split; [reflexivity |]; exists e; simpl; unfold answers; simpl;
       rewrite String.eqb_refl; split_and!; reflexivity.
  destruct Hfmt as [-> | [cmd ->]]; discriminate H.
Qed.

Lemma Run_early_failure_witness :
  existsb is_Mount (trace (Sim.os mkfs_fails) (Run debian_ext4 prepared) O)
    = false /\
  (result (Sim.os mkfs_fails) (Run debian_ext4 prepared) O).2 = prepared /\
  exists e : error,
    (result (Sim.os mkfs_fails) (Run debian_ext4 prepared) O).1 = Some e.
Proof.
  destruct (Run_early_failure (Sim.os mkfs_fails) O debian_ext4 prepared eq_refl)
    as (Hc & e & He & _).
  split_and!; [reflexivity | exact Hc | exists e; exact He].
Defined.

(** X9: when the mount fails, the error of the run is the mount directory,
    the text " mount failed: " and the mount's error; the context returned
    already has that directory as its mount directory, although nothing is
    mounted there. *)
Theorem Run_mount_failure (os : OS) (w : World os)
    (i : ImageFileAction) (context : DebosContext) :
  existsb (ko is_Mount) (trace os (Run i context) w) = true ->
  let context' := (result os (Run i context) w).2 in
  context' = set_ImageMntDir context (ImageMntDir context') /\
  mount_targets (trace os (Run i context) w) = [ImageMntDir context'] /\
  exists e : error,
    existsb (fun ev => is_Mount ev && answers e ev)
      (trace os (Run i context) w) = true /\
    (result os (Run i context) w).1
      = Some (ImageMntDir context' +:+ " mount failed: " +:+ e).
Proof.
  destruct (Run_paths os w i context)
    as [(f & e & -> & ->) | [(f & e & c & -> & ->) |
        [(f & cmd & e & c & -> & ->) |
         (f & fmt & dev & x & mnt & m & rm & c & Hfmt & -> & ->)]]];
    intros H; try discriminate H.
  destruct Hfmt as [-> | [cmd ->]]; destruct rm as [e |];
    try discriminate H; cbv zeta; simpl;
    (split_and!; try reflexivity; exists e; unfold answers; simpl;
     rewrite String.eqb_refl; split; reflexivity).
Qed.

Lemma Run_mount_failure_witness :
  existsb (ko is_Mount)
    (trace (Sim.os mount_refused) (Run debian_ext4 prepared) O) = true /\
  mount_targets (trace (Sim.os mount_refused) (Run debian_ext4 prepared) O)
    = ["/scratch/mnt"] /\
  exists e : error,
    (result (Sim.os mount_refused) (Run debian_ext4 prepared) O).1
      = Some ("/scratch/mnt" +:+ " mount failed: " +:+ e).
Proof.
  destruct (Run_mount_failure (Sim.os mount_refused) O debian_ext4 prepared
              eq_refl) as (_ & Ht & e & _ & He).
  split_and!; [reflexivity | exact Ht | exists e; exact He].
Defined.

(** The trace of the formatting step, from the command line the switch
    builds. *)
Lemma formatFile_trace (os : OS) (w : World os) (i : ImageFileAction)
    (context : DebosContext) :
  trace os (formatFile i context) w =
    match (formatFile_switch i).1 with
    | [] => []
    | cmd =>
        [Ev (CommandRun "Formatting file" (cmd ++ [Image context]))
            (result os (formatFile i context) w)]
    end.
Proof.
  destruct (formatFile_switch i) as [cmd j] eqn:Hsw. simpl.
  destruct cmd as [| c0 cmd].
  - unfold trace, formatFile. rewrite Hsw. reflexivity.
  - apply (formatFile_runs os w i context (c0 :: cmd) j Hsw). discriminate.
Qed.

(** The command lines of a run are those of its formatting step, if it got
    that far. *)
Lemma Run_command_lines (os : OS) (w : World os) (i : ImageFileAction)
    (context : DebosContext) :
  command_lines (trace os (Run i context) w) = [] \/
  exists w3 : World os,
    command_lines (trace os (Run i context) w)
      = command_lines (trace os (formatFile i context) w3).
Proof.
  unfold Run.
  remember (formatFile i context) as fmt eqn:Hfmt.
  prog. do 3 answer.
  repeat match goal with u : unit |- _ => destruct u end.
  destruct r1 as [f [e |]]; simpl; [left; reflexivity |].
  answer. destruct r as [e |]; simpl; [answer; left; reflexivity |].
  right. exists w3. rewrite !exec_bind. unfold trace.
  destruct (exec os fmt w3) as [[a w4] t1]. simpl.
  destruct a as [e |]; simpl.
  - answer. unfold command_lines. simpl. rewrite !omap_app. simpl.
    rewrite !app_nil_r. reflexivity.
  - answer. destruct r as [dev x]; simpl. do 3 answer.
    destruct r1 as [e |]; simpl; answer;
      unfold command_lines; simpl; rewrite !omap_app; simpl;
      rewrite !app_nil_r; reflexivity.
Qed.

(** X10: in every run, the only path opened is the image of the context,
    every formatting command has that same path as its last argument, and
    the source of the mount is whatever path the resolver answered. *)
Theorem Run_paths_used (os : OS) (w : World os)
    (i : ImageFileAction) (context : DebosContext) :
  open_names (trace os (Run i context) w) = [Image context] /\
  Forall (fun cmd => last cmd = Some (Image context))
    (command_lines (trace os (Run i context) w)) /\
  mount_sources (trace os (Run i context) w)
    = resolved_paths (trace os (Run i context) w).
Proof.
  split_and!.
  - destruct (Run_paths os w i context)
      as [(f & e & _ & ->) | [(f & e & c & _ & ->) |
          [(f & cmd & e & c & _ & ->) |
           (f & fmt & dev & x & mnt & m & rm & c & Hfmt & _ & ->)]]];
      try reflexivity.
    destruct Hfmt as [-> | [cmd ->]]; reflexivity.
  - destruct (Run_command_lines os w i context) as [-> | [w3 ->]];
      [constructor |].
    rewrite formatFile_trace.
    destruct (formatFile_switch i).1 as [| c0 cmd]; simpl; [constructor |].
    constructor; [| constructor].
    change (c0 :: cmd ++ [Image context]) with ((c0 :: cmd) ++ [Image context]).
    apply last_snoc.
  - destruct (Run_paths os w i context)
      as [(f & e & _ & ->) | [(f & e & c & _ & ->) |
          [(f & cmd & e & c & _ & ->) |
           (f & fmt & dev & x & mnt & m & rm & c & Hfmt & _ & ->)]]];
      try reflexivity.
    destruct Hfmt as [-> | [cmd ->]]; reflexivity.
Qed.

(** X11: when the resolution of symbolic links fails, the run goes on: the
    directory is joined and created and the mount is requested, with the
    path the resolver answered next to its error as the source; the result
    of the run is decided by the mount alone. *)
Theorem Run_discards_EvalSymlinks_error (os : OS) (w : World os)
    (i : ImageFileAction) (context : DebosContext) :
  existsb (ko is_EvalSymlinks) (trace os (Run i context) w) = true ->
  exists (dev mnt : string) (m rm c : option error) (f : File),
    resolved_paths (trace os (Run i context) w) = [dev] /\
    after is_EvalSymlinks (trace os (Run i context) w) =
      [Ev (PathJoin [Scratchdir context; "mnt"]) mnt;
       Ev (MkdirAll mnt perm_0755) m;
       Ev (Mount dev mnt (FS i) 0 "") rm;
       Ev (Close f) c] /\
    (result os (Run i context) w).1 =
      match rm with
      | Some e => Some (mnt +:+ " mount failed: " +:+ e)
      | None => None
      end.
Proof.
  destruct (Run_paths os w i context)
    as [(f & e & -> & ->) | [(f & e & c & -> & ->) |
        [(f & cmd & e & c & -> & ->) |
         (f & fmt & dev & x & mnt & m & rm & c & Hfmt & -> & ->)]]];
    intros H; try discriminate H.
  exists dev, mnt, m, rm, c, f.
  destruct Hfmt as [-> | [cmd ->]]; split_and!; reflexivity.
Qed.

Lemma Run_discards_EvalSymlinks_error_witness :
  existsb (ko is_EvalSymlinks) (trace broken_links (Run debian_ext4 prepared) O)
    = true /\
  exists (dev mnt : string) (m rm c : option error) (f : File),
    resolved_paths (trace broken_links (Run debian_ext4 prepared) O) = [dev] /\
    after is_EvalSymlinks (trace broken_links (Run debian_ext4 prepared) O) =
      [Ev (PathJoin ["/scratch"; "mnt"]) mnt;
       Ev (MkdirAll mnt perm_0755) m;
       Ev (Mount dev mnt "ext4" 0 "") rm;
       Ev (Close f) c] /\
    (result broken_links (Run debian_ext4 prepared) O).1 =
      match rm with
      | Some e => Some (mnt +:+ " mount failed: " +:+ e)
      | None => None
      end.
Proof.
  split; [reflexivity |].
  apply (Run_discards_EvalSymlinks_error broken_links O debian_ext4 prepared).
  reflexivity.
Defined.

Lemma formatFile_switch_none (i : ImageFileAction) :
  FS i = "none" -> (formatFile_switch i).1 = [].
Proof. intros H. unfold formatFile_switch. rewrite H. reflexivity. Qed.

(** X12: for the type none, a run never calls a formatting tool, and once
    it holds the lock it still requests the mount, exactly once, with none
    as the file-system type. *)
Theorem Run_none_still_mounts (os : OS) (w : World os)
    (i : ImageFileAction) (context : DebosContext) :
  FS i = "none" ->
  command_lines (trace os (Run i context) w) = [] /\
  (existsb (ok is_Flock) (trace os (Run i context) w) = true ->
     mount_fstypes (trace os (Run i context) w) = ["none"] /\
     count is_Mount (trace os (Run i context) w) = 1%nat).
Proof.
  intros Hnone.
  assert (Hcmd : command_lines (trace os (Run i context) w) = []).
  { destruct (Run_command_lines os w i context) as [-> | [w3 ->]];
      [reflexivity |].
    rewrite formatFile_trace, formatFile_switch_none by exact Hnone.
    reflexivity. }
  split; [exact Hcmd |].
  revert Hcmd.
  destruct (Run_paths os w i context)
    as [(f & e & _ & ->) | [(f & e & c & _ & ->) |
        [(f & cmd & e & c & _ & ->) |
         (f & fmt & dev & x & mnt & m & rm & c & Hfmt & _ & ->)]]];
    intros Hcmd H; try discriminate H; try discriminate Hcmd.
  destruct Hfmt as [-> | [cmd ->]]; [| discriminate Hcmd].
  rewrite <- Hnone. split; reflexivity.
Qed.

Lemma Run_none_still_mounts_witness :
  command_lines (trace (Sim.os Sim.fine) (Run unformatted prepared) O) = [] /\
  mount_fstypes (trace (Sim.os Sim.fine) (Run unformatted prepared) O)
    = ["none"].
Proof.
  destruct (Run_none_still_mounts (Sim.os Sim.fine) O unformatted prepared
              eq_refl) as (Hc & Hm).
  split; [exact Hc | exact (proj1 (Hm eq_refl))].
Defined.

(** ** The cleanup *)

Lemma failed_rounds_readings (d : Device) (errs : list error) :
  sleep_durations (failed_rounds d errs) = replicate (length errs) Second /\
  remove_answers (failed_rounds d errs) = Some <$> errs /\
  loop_devices (failed_rounds d errs) = replicate (length errs) d /\
  unmount_targets (failed_rounds d errs) = [].
Proof.
  induction errs as [| e errs IH]; [split_and!; reflexivity |].
  destruct IH as (IH1 & IH2 & IH3 & IH4).
  change (failed_rounds d (e :: errs))
    with (failed_round d e ++ failed_rounds d errs).
  unfold sleep_durations, remove_answers, loop_devices, unmount_targets in *.
  rewrite !omap_app, IH1, IH2, IH3, IH4. split_and!; reflexivity.
Qed.

Lemma last_error_last (err0 : option error) (errs : list error) :
  last_error err0 errs = default err0 (last (Some <$> errs)).
Proof.
  revert err0. induction errs as [| e errs IH]; intros err0; [reflexivity |].
  change (last_error err0 (e :: errs)) with (last_error (Some e) errs).
  rewrite IH. destruct errs as [| e' errs]; [reflexivity |].
  change (last (Some <$> e :: e' :: errs)) with (last (Some <$> e' :: errs)).
  destruct (last (Some <$> e' :: errs)) as [r |] eqn:Hlast; [reflexivity |].
  apply last_None in Hlast. discriminate Hlast.
Qed.

Lemma existsb_failed_rounds (d : Device) (errs : list error) (e : error) :
  last (Some <$> errs) = Some (Some e) ->
  existsb (fun ev => is_Remove ev && answers e ev) (failed_rounds d errs) = true.
Proof.
  induction errs as [| x errs IH]; [discriminate |].
  intros H. unfold failed_rounds in *. simpl.
  destruct errs as [| y errs].
  - injection H as ->. unfold answers. simpl. rewrite String.eqb_refl.
    reflexivity.
  - rewrite IH by exact H. apply orb_true_r.
Qed.

(** What every execution of the removal loop shows. *)
Lemma Cleanup_loop_outcome (os : OS) (w : World os) (d : Device) :
  let tr := trace os (Cleanup_loop d 60 None) w in
  let r := result os (Cleanup_loop d 60 None) w in
  (r = None <-> count (ok is_Remove) tr = 1%nat) /\
  sleep_durations tr = replicate (count (ko is_Remove) tr) Second /\
  last (remove_answers tr) = Some r /\
  loop_devices tr = replicate (count is_Remove tr) d /\
  unmount_targets tr = [] /\
  (forall e, r = Some e ->
     existsb (fun ev => is_Remove ev && answers e ev) tr = true).
Proof.
  cbv zeta.
  destruct (Cleanup_loop_shape os d 60 w None)
    as [errs [(Hl & -> & ->) | (Hl & -> & ->)]];
    destruct (count_failed_rounds d errs) as (C1 & C2 & C3 & _);
    destruct (failed_rounds_readings d errs) as (R1 & R2 & R3 & R4).
  - unfold sleep_durations, remove_answers, loop_devices, unmount_targets in *.
    rewrite !count_app, !omap_app, C1, C2, C3, R1, R2, R3, R4. simpl.
    rewrite Nat.add_0_r, last_snoc.
    split_and!; try reflexivity.
    + split; reflexivity.
    + apply app_nil_r.
    + rewrite Nat.add_1_r, replicate_S_end. reflexivity.
    + intros e H. discriminate H.
  - rewrite C1, C2, C3, R1, R2, R3, R4, last_error_last.
    destruct errs as [| x errs]; [discriminate Hl |].
    destruct (last (Some <$> x :: errs)) as [r |] eqn:Hlast.
    2: { apply last_None in Hlast. discriminate Hlast. }
    assert (Hr : exists e, r = Some e).
    { clear -Hlast. revert x Hlast.
      induction errs as [| y errs IH]; intros x Hlast.
      - injection Hlast as <-. eauto.
      - apply (IH y). exact Hlast. }
    destruct Hr as [e ->].
    change (default None (Some (Some e))) with (Some e).
    split_and!; try reflexivity.
    + split; intros H; discriminate H.
    + intros e' H. injection H as <-.
      apply existsb_failed_rounds. exact Hlast.
Qed.

Lemma remove_warning_readings (r : option error) :
  (forall p : Event -> bool,
     (forall f v, p (Ev (Printf f v) tt) = false) ->
     count p (remove_warning r) = O) /\
  sleep_durations (remove_warning r) = [] /\
  remove_answers (remove_warning r) = [] /\
  loop_devices (remove_warning r) = [] /\
  unmount_targets (remove_warning r) = [] /\
  (forall e, r = Some e -> existsb (logs e) (remove_warning r) = true).
Proof.
  destruct r as [e |]; simpl; split_and!; try reflexivity.
  - intros p Hp. rewrite Hp. reflexivity.
  - intros e' H. injection H as <-. rewrite String.eqb_refl. reflexivity.
  - intros e' H. discriminate H.
Qed.

(** X13: Cleanup returns no error exactly when the unmount succeeded and
    either the action does not own a loop device, or the detach and one
    removal attempt succeeded. *)
Theorem Cleanup_result (os : OS) (w : World os) (i : ImageFileAction)
    (context : DebosContext) :
  result os (Cleanup i context) w = None <->
  count (ok is_Unmount) (trace os (Cleanup i context) w) = 1%nat /\
  (usingLoop i = false \/
   (count (ok is_Detach) (trace os (Cleanup i context) w) = 1%nat /\
    count (ok is_Remove) (trace os (Cleanup i context) w) = 1%nat)).
Proof.
  destruct (Cleanup_paths os w i context)
    as [(e & Hr & Ht) | [(Hu & Hr & Ht) | [(Hu & e & Hr & Ht) |
        (Hu & w1 & Hr & Ht)]]];
    rewrite Ht, ?Hr; clear Ht.
  - simpl. split; [intros H; discriminate H | intros [H _]; discriminate H].
  - simpl. split; [intros _; split; [reflexivity | left; exact Hu] | reflexivity].
  - simpl. rewrite Hu.
    split; [intros H; discriminate H |].
    intros [_ [H | [H _]]]; discriminate H.
  - destruct (Cleanup_loop_counts os w1 (loopDev i)) as (_ & _ & _ & Hd & Hm).
    destruct (Cleanup_loop_outcome os w1 (loopDev i)) as (Hiff & _).
    destruct (remove_warning_readings
                (result os (Cleanup_loop (loopDev i) 60 None) w1))
      as (Hw & _).
    rewrite !count_app, !Hw, Hd, Hm by reflexivity. simpl.
    rewrite Hu, Nat.add_0_r, Hiff.
    split; [intros H; split; [reflexivity | right; split; [reflexivity | exact H]] |].
    intros [_ [H | [_ H]]]; [discriminate H | exact H].
Qed.

(** X14: whenever Cleanup returns an error, that error is the one a failed
    unmount, detach or removal answered, unchanged, and Cleanup has written
    a log line that carries it. *)
Theorem Cleanup_error_logged (os : OS) (w : World os) (i : ImageFileAction)
    (context : DebosContext) (e : error) :
  result os (Cleanup i context) w = Some e ->
  existsb (fun ev => is_cleanup ev && answers e ev)
    (trace os (Cleanup i context) w) = true /\
  existsb (logs e) (trace os (Cleanup i context) w) = true.
Proof.
  destruct (Cleanup_paths os w i context)
    as [(e' & Hr & Ht) | [(Hu & Hr & Ht) | [(Hu & e' & Hr & Ht) |
        (Hu & w1 & Hr & Ht)]]];
    rewrite Ht, ?Hr; clear Ht; intros H; try discriminate H.
  - injection H as ->. unfold answers. simpl. rewrite String.eqb_refl.
    split; reflexivity.
  - injection H as ->. unfold answers. simpl. rewrite String.eqb_refl.
    split; reflexivity.
  - destruct (Cleanup_loop_outcome os w1 (loopDev i))
      as (_ & _ & _ & _ & _ & Hans).
    destruct (remove_warning_readings
                (result os (Cleanup_loop (loopDev i) 60 None) w1))
      as (_ & _ & _ & _ & _ & Hlog).
    rewrite !existsb_app, (Hlog e H), !orb_true_r.
    split; [| reflexivity].
    apply orb_true_iff. right. apply orb_true_iff. left.
    specialize (Hans e H).
    rewrite existsb_exists in *. destruct Hans as (ev & Hin & Hev).
    exists ev. split; [exact Hin |].
    apply andb_true_iff in Hev. destruct Hev as [Hrm Hanswer].
    unfold is_cleanup. rewrite Hrm, Hanswer, !orb_true_r. reflexivity.
Qed.

Lemma Cleanup_error_logged_witness :
  result (Sim.os busy) (Cleanup owned mounted) O
    = Some "device or resource busy" /\
  existsb (logs "device or resource busy")
    (trace (Sim.os busy) (Cleanup owned mounted) O) = true.
Proof.
  split; [reflexivity |].
  apply (Cleanup_error_logged (Sim.os busy) O owned mounted
           "device or resource busy").
  reflexivity.
Defined.

(** X15: Cleanup sleeps once, for exactly one second, after every failed
    removal attempt, the last one included, and at no other time: a loop
    device that cannot be removed costs 60 sleeps. *)
Theorem Cleanup_sleeps (os : OS) (w : World os) (i : ImageFileAction)
    (context : DebosContext) :
  sleep_durations (trace os (Cleanup i context) w)
    = replicate (count (ko is_Remove) (trace os (Cleanup i context) w)) Second /\
  (count (ko is_Remove) (trace os (Cleanup i context) w) <= 60)%nat.
Proof.
  destruct (Cleanup_paths os w i context)
    as [(e & Hr & Ht) | [(Hu & Hr & Ht) | [(Hu & e & Hr & Ht) |
        (Hu & w1 & Hr & Ht)]]];
    rewrite Ht, ?Hr; clear Ht; try (split; [reflexivity | simpl; lia]).
  destruct (Cleanup_loop_outcome os w1 (loopDev i)) as (_ & Hs & _).
  destruct (remove_warning_readings
              (result os (Cleanup_loop (loopDev i) 60 None) w1))
    as (Hw & Hws & _).
  unfold sleep_durations in *.
  rewrite !omap_app, !count_app, Hs, Hws, Hw by reflexivity.
  simpl. rewrite app_nil_r, Nat.add_0_r. split; [reflexivity |].
  destruct (Cleanup_loop_shape os (loopDev i) 60 w1 None)
    as [errs [(Hl & _ & ->) | (Hl & _ & ->)]];
    destruct (count_failed_rounds (loopDev i) errs) as (_ & _ & C3 & _);
    rewrite ?count_app, C3; simpl; lia.
Qed.

(** X16: once the detach has succeeded, what Cleanup returns is the answer
    of the last removal attempt it made: no error if that attempt
    succeeded, and otherwise the error of the last attempt, not of the
    first. *)
Theorem Cleanup_reports_last_removal (os : OS) (w : World os)
    (i : ImageFileAction) (context : DebosContext) :
  count (ok is_Detach) (trace os (Cleanup i context) w) = 1%nat ->
  last (remove_answers (trace os (Cleanup i context) w))
    = Some (result os (Cleanup i context) w).
Proof.
  destruct (Cleanup_paths os w i context)
    as [(e & Hr & Ht) | [(Hu & Hr & Ht) | [(Hu & e & Hr & Ht) |
        (Hu & w1 & Hr & Ht)]]];
    rewrite Ht, ?Hr; clear Ht; intros H; try discriminate H.
  destruct (Cleanup_loop_outcome os w1 (loopDev i)) as (_ & _ & Hlast & _).
  destruct (remove_warning_readings
              (result os (Cleanup_loop (loopDev i) 60 None) w1))
    as (_ & _ & Hwr & _).
  unfold remove_answers in *.
  rewrite !omap_app, Hwr, app_nil_r. exact Hlast.
Qed.

(** The first two removals fail with one error, the later ones would
    succeed: Cleanup returns no error. *)
Lemma Cleanup_reports_last_removal_witness :
  count (ok is_Detach) (trace (Sim.os slow_removal) (Cleanup owned mounted) O)
    = 1%nat /\
  last (remove_answers (trace (Sim.os slow_removal) (Cleanup owned mounted) O))
    = Some None /\
  result (Sim.os slow_removal) (Cleanup owned mounted) O = None.
Proof.
  assert (H := Cleanup_reports_last_removal (Sim.os slow_removal) O owned
                 mounted eq_refl).
  split_and!; [reflexivity | rewrite H; reflexivity | reflexivity].
Defined.

(** ** How the phases fit together *)

Lemma Cleanup_devices (os : OS) (w : World os) (i : ImageFileAction)
    (context : DebosContext) :
  Forall (fun d => d = loopDev i)
    (loop_devices (trace os (Cleanup i context) w)) /\
  unmount_targets (trace os (Cleanup i context) w) = [ImageMntDir context] /\
  (usingLoop i = true ->
   count (ok is_Unmount) (trace os (Cleanup i context) w) = 1%nat ->
   head (loop_devices (trace os (Cleanup i context) w)) = Some (loopDev i)).
Proof.
  destruct (Cleanup_paths os w i context)
    as [(e & Hr & Ht) | [(Hu & Hr & Ht) | [(Hu & e & Hr & Ht) |
        (Hu & w1 & Hr & Ht)]]];
    rewrite Ht, ?Hr; clear Ht.
  - split_and!; [constructor | reflexivity |]. intros _ H. discriminate H.
  - split_and!; [constructor | reflexivity |]. intros H. congruence.
  - split_and!; [repeat constructor | reflexivity | reflexivity].
  - destruct (Cleanup_loop_outcome os w1 (loopDev i))
      as (_ & _ & _ & Hd & Hu' & _).
    destruct (remove_warning_readings
                (result os (Cleanup_loop (loopDev i) 60 None) w1))
      as (_ & _ & _ & Hwd & Hwu & _).
    unfold loop_devices, unmount_targets in *.
    rewrite !omap_app, Hd, Hu', Hwd, Hwu, !app_nil_r.
    split_and!; [| reflexivity | reflexivity].
    simpl. constructor; [reflexivity |].
    apply Forall_replicate. reflexivity.
Qed.

Lemma Run_opens_image (os : OS) (w : World os) (i : ImageFileAction)
    (context : DebosContext) :
  open_names (trace os (Run i context) w) = [Image context] /\
  (existsb is_Mount (trace os (Run i context) w) = true ->
   mount_targets (trace os (Run i context) w)
     = [ImageMntDir (result os (Run i context) w).2]).
Proof.
  destruct (Run_paths os w i context)
    as [(f & e & -> & ->) | [(f & e & c & -> & ->) |
        [(f & cmd & e & c & -> & ->) |
         (f & fmt & dev & x & mnt & m & rm & c & Hfmt & -> & ->)]]];
    try (split; [reflexivity | intros H; discriminate H]).
  destruct Hfmt as [-> | [cmd ->]]; split; intros; reflexivity.
Qed.

(** X17: after a successful direct preparation the action owns the device
    that the attach answered, and a later Cleanup of that action, in any
    environment and on any context, detaches and removes that device and no
    other; if its unmount succeeds, the detach of that device is
    requested. *)
Theorem Cleanup_releases_attached_device (os : OS) (w : World os)
    (i : ImageFileAction) (context : DebosContext) :
  (result os (PreNoMachine i context) w).1.1 = None ->
  let i' := (result os (PreNoMachine i context) w).1.2 in
  attached_devices (trace os (PreNoMachine i context) w) = [loopDev i'] /\
  forall (os' : OS) (w' : World os') (context' : DebosContext),
    Forall (fun d => d = loopDev i')
      (loop_devices (trace os' (Cleanup i' context') w')) /\
    (count (ok is_Unmount) (trace os' (Cleanup i' context') w') = 1%nat ->
     head (loop_devices (trace os' (Cleanup i' context') w'))
       = Some (loopDev i')).
Proof.
  destruct (PreNoMachine_paths os w i context)
    as [(sz & e & -> & ->) | [(sz & img & e & -> & ->) |
        [(sz & img & e & -> & ->) | [(sz & img & c & dev & e & -> & ->) |
         (sz & img & c & dev & p & -> & ->)]]]];
    intros H; try discriminate H.
  cbv zeta. split; [reflexivity |].
  intros os' w' context'.
  destruct (Cleanup_devices os' w'
              (set_usingLoop (set_loopDev (set_size i sz) dev) true) context')
    as (Hall & _ & Hhead).
  split; [exact Hall | exact (Hhead eq_refl)].
Qed.

Lemma Cleanup_releases_attached_device_witness :
  attached_devices (trace (Sim.os Sim.fine) (PreNoMachine debian_ext4 scratch) O)
    = [mkDevice 0] /\
  loop_devices
    (trace (Sim.os slow_removal)
       (Cleanup (result (Sim.os Sim.fine)
                   (PreNoMachine debian_ext4 scratch) O).1.2 mounted) O)
    = replicate 4 (mkDevice 0).
Proof.
  destruct (Cleanup_releases_attached_device (Sim.os Sim.fine) O debian_ext4
              scratch eq_refl) as (Ha & _).
  split; [exact Ha | reflexivity].
Defined.

(** X18: whenever a run has requested a mount, whether the mount succeeded
    or not, a Cleanup on the context the run returned, in any environment
    and for any action, unmounts exactly the directory that was the target
    of that mount. *)
Theorem Cleanup_unmounts_Run_target (os : OS) (w : World os)
    (i : ImageFileAction) (context : DebosContext) :
  existsb is_Mount (trace os (Run i context) w) = true ->
  forall (os' : OS) (w' : World os') (j : ImageFileAction),
    unmount_targets
      (trace os' (Cleanup j (result os (Run i context) w).2) w')
    = mount_targets (trace os (Run i context) w).
Proof.
  intros H os' w' j.
  destruct (Run_opens_image os w i context) as (_ & Hm).
  rewrite (Hm H).
  apply (Cleanup_devices os' w' j (result os (Run i context) w).2).
Qed.

Lemma Cleanup_unmounts_Run_target_witness :
  unmount_targets
    (trace (Sim.os busy)
       (Cleanup owned
          (result (Sim.os mount_refused) (Run debian_ext4 prepared) O).2) O)
  = ["/scratch/mnt"].
Proof.
  rewrite (Cleanup_unmounts_Run_target (Sim.os mount_refused) O debian_ext4
             prepared eq_refl (Sim.os busy) O owned).
  reflexivity.
Defined.

(** X19: after a successful direct preparation, a run on the context it
    returned, in any environment and for any action, opens (and so locks)
    exactly one path: the one the loop library gave as the path of the
    attached device. *)
Theorem Run_opens_attached_device (os : OS) (w : World os)
    (i : ImageFileAction) (context : DebosContext) :
  (result os (PreNoMachine i context) w).1.1 = None ->
  forall (os' : OS) (w' : World os') (j : ImageFileAction),
    open_names
      (trace os' (Run j (result os (PreNoMachine i context) w).2) w')
    = path_answers (trace os (PreNoMachine i context) w).
Proof.
  intros H os' w' j.
  destruct (Run_opens_image os' w' j (result os (PreNoMachine i context) w).2)
    as (-> & _).
  revert H.
  destruct (PreNoMachine_paths os w i context)
    as [(sz & e & -> & ->) | [(sz & img & e & -> & ->) |
        [(sz & img & e & -> & ->) | [(sz & img & c & dev & e & -> & ->) |
         (sz & img & c & dev & p & -> & ->)]]]];
    intros H; try discriminate H.
  reflexivity.
Qed.

Lemma Run_opens_attached_device_witness :
  open_names
    (trace (Sim.os mkfs_fails)
       (Run debian_ext4
          (result (Sim.os Sim.fine) (PreNoMachine debian_ext4 scratch) O).2) O)
  = ["/dev/loop0"].
Proof.
  rewrite (Run_opens_attached_device (Sim.os Sim.fine) O debian_ext4 scratch
             eq_refl (Sim.os mkfs_fails) O debian_ext4).
  reflexivity.
Defined.

Lemma failed_rounds_cleanup_only (d : Device) (errs : list error) :
  existsb foreign_to_cleanup (failed_rounds d errs) = false.
Proof.
  induction errs as [| e errs IH]; [reflexivity |].
  change (failed_rounds d (e :: errs))
    with (failed_round d e ++ failed_rounds d errs).
  rewrite existsb_app, IH. reflexivity.
Qed.

(** X20: each phase keeps to its own requests.  The direct preparation
    never opens the device, locks, formats, mounts, unmounts, detaches or
    removes, and never asks the machine for an image; the delegated
    preparation never touches a file or a loop device of the host; the run
    never parses, creates or resizes a file, attaches, detaches, removes or
    unmounts; the cleanup never opens, locks, formats, mounts, creates or
    attaches anything. *)
Theorem phases_keep_apart (os : OS) (w : World os) (i : ImageFileAction)
    (context : DebosContext) (args : list string) :
  existsb (fun e => is_run e || is_cleanup e || is_CreateImage e)
    (trace os (PreNoMachine i context) w) = false /\
  existsb host_side (trace os (PreMachine i context args) w) = false /\
  existsb (fun e => is_preparation e || is_cleanup e)
    (trace os (Run i context) w) = false /\
  existsb foreign_to_cleanup (trace os (Cleanup i context) w) = false.
Proof.
  split_and!.
  - destruct (PreNoMachine_paths os w i context)
      as [(sz & e & _ & ->) | [(sz & img & e & _ & ->) |
          [(sz & img & e & _ & ->) | [(sz & img & c & dev & e & _ & ->) |
           (sz & img & c & dev & p & _ & ->)]]]]; reflexivity.
  - destruct (PreMachine_paths os w i context args)
      as [(sz & e & _ & ->) | [(sz & image & e & _ & ->) |
          (sz & image & _ & ->)]]; reflexivity.
  - destruct (Run_paths os w i context)
      as [(f & e & _ & ->) | [(f & e & c & _ & ->) |
          [(f & cmd & e & c & _ & ->) |
           (f & fmt & dev & x & mnt & m & rm & c & Hfmt & _ & ->)]]];
      try reflexivity.
    destruct Hfmt as [-> | [cmd ->]]; reflexivity.
  - destruct (Cleanup_paths os w i context)
      as [(e & _ & Ht) | [(Hu & _ & Ht) | [(Hu & e & _ & Ht) |
          (Hu & w1 & _ & Ht)]]];
      rewrite Ht; clear Ht; try reflexivity.
    rewrite !existsb_app.
    assert (Hw : existsb foreign_to_cleanup
                   (remove_warning (result os (Cleanup i context) w)) = false)
      by (destruct (result os (Cleanup i context) w); reflexivity).
    rewrite Hw.
    destruct (Cleanup_loop_shape os (loopDev i) 60 w1 None)
      as [errs [(_ & _ & ->) | (_ & _ & ->)]];
      rewrite ?existsb_app, failed_rounds_cleanup_only; reflexivity.
Qed.

(** ** The formatting command *)

(** X21: for every type other than none, the formatting step runs exactly
    one command; its first word is a tool whose name begins with mkfs., the
    configured label is one of its arguments, and the image path is its
    last argument. *)
Theorem formatFile_command_shape (os : OS) (w : World os)
    (i : ImageFileAction) (context : DebosContext) :
  FS i <> "none" ->
  exists (tool : string) (rest : list string),
    command_lines (trace os (formatFile i context) w)
      = [tool :: rest ++ [Image context]] /\
    String.prefix "mkfs." tool = true /\
    In (FSName i) rest.
Proof.
  intros Hnone. rewrite formatFile_trace. unfold formatFile_switch.
  repeat match goal with
         | |- context [(FS i =? ?s)%string] =>
             destruct (String.eqb_spec (FS i) s)
         end; try contradiction; simpl;
    match goal with
    | |- exists tool rest, [?t :: ?l] = _ /\ _ =>
        exists t, (removelast l)
    end;
    (split_and!;
       [reflexivity | simpl; destruct (FS i); reflexivity | simpl; tauto]).
Qed.

Lemma formatFile_command_shape_witness :
  exists (tool : string) (rest : list string),
    command_lines (trace (Sim.os Sim.fine) (formatFile mac_hfsx prepared) O)
      = [tool :: rest ++ ["/dev/loop0"]] /\
    String.prefix "mkfs." tool = true /\
    In "mac" rest.
Proof.
  apply (formatFile_command_shape (Sim.os Sim.fine) O mac_hfsx prepared).
  discriminate.
Defined.

(** ** The size asked of the machine *)

(** X22: the delegated preparation asks the machine for at most one image;
    when it does, the image has the configured name and exactly the size
    the parser answered, and the size text was parsed once. *)
Theorem PreMachine_creates_parsed_size (os : OS) (w : World os)
    (i : ImageFileAction) (context : DebosContext) (args : list string) :
  created_images (trace os (PreMachine i context args) w) = [] \/
  exists sz : Z,
    parsed_sizes (trace os (PreMachine i context args) w) = [sz] /\
    created_images (trace os (PreMachine i context args) w)
      = [(ImageName i, sz)].
Proof.
  destruct (PreMachine_paths os w i context args)
    as [(sz & e & _ & ->) | [(sz & image & e & _ & ->) |
        (sz & image & _ & ->)]];
    [left; reflexivity | right; exists sz; split; reflexivity
    | right; exists sz; split; reflexivity].
Qed.
